(** * Futarchy UI: the Autocrat context provider and the proposal hook

    A shallow embedding of [src/unnamed/part_000] (the [AutocratProvider]
    React context) and [src/hooks/useInitializeProposal.ts].

    Both files are orchestration code: they call the Anchor program client,
    the AMM client, the wallet adapter and the RPC connection.  Those calls
    are not part of the repository, so they are modelled as requests to an
    arbitrary [World]; what the embedding fixes is which requests the code
    issues, with which arguments, in which order, and what it does with the
    replies and the errors. *)

From Stdlib Require Import List String ZArith Bool Lia.
From Stdlib Require Import Permutation Sorted DecimalString DecimalZ DecimalPos.
Import ListNotations.

Local Open Scope string_scope.
Local Open Scope Z_scope.
Local Open Scope list_scope.

(** ** Values of the Solana SDK that the code handles *)

(** A [PublicKey] is identified by its base58 text; [toString] returns it
    and [equals] compares keys. *)
Record PublicKey := { toBase58 : string }.

Definition PublicKey_toString (k : PublicKey) : string := toBase58 k.

Definition PublicKey_equals (a b : PublicKey) : bool :=
  String.eqb (toBase58 a) (toBase58 b).

(** A [Buffer] is a sequence of bytes; [Buffer.from(s)] on the ASCII
    literals of the source is the text itself. *)
Definition Buffer := string.
Definition Buffer_from (s : string) : Buffer := s.

(** [n.toString()] for an integral JS number. *)
Definition Number_toString (n : Z) : string :=
  NilZero.string_of_int (Z.to_int n).

Record Keypair := { kp_publicKey : PublicKey; kp_secretKey : Buffer }.

Record TransactionInstruction := {
  ix_programId : PublicKey;
  ix_keys : list PublicKey;
  ix_data : Buffer
}.

Record BlockhashWithExpiryBlockHeight := {
  blockhash : string;
  lastValidBlockHeight : Z
}.

(** A web3.js [Transaction] object; [signatures] lists the keys whose
    signature the object already carries. *)
Record Transaction := {
  instructions : list TransactionInstruction;
  feePayer : option PublicKey;
  recentBlockhash : option string;
  signatures : list PublicKey
}.

Definition new_Transaction : Transaction :=
  {| instructions := []; feePayer := None; recentBlockhash := None;
     signatures := [] |}.

(** [tx.add(...items)] appends the items in argument order. *)
Definition Transaction_add (tx : Transaction)
    (items : list TransactionInstruction) : Transaction :=
  {| instructions := instructions tx ++ items; feePayer := feePayer tx;
     recentBlockhash := recentBlockhash tx; signatures := signatures tx |}.

Definition set_feePayer (tx : Transaction) (k : PublicKey) : Transaction :=
  {| instructions := instructions tx; feePayer := Some k;
     recentBlockhash := recentBlockhash tx; signatures := signatures tx |}.

Definition set_recentBlockhash (tx : Transaction) (h : string) : Transaction :=
  {| instructions := instructions tx; feePayer := feePayer tx;
     recentBlockhash := Some h; signatures := signatures tx |}.

(** The state of the object after a successful [tx.sign(signer)]. *)
Definition signed_by (tx : Transaction) (signer : Keypair) : Transaction :=
  {| instructions := instructions tx; feePayer := feePayer tx;
     recentBlockhash := recentBlockhash tx;
     signatures := [kp_publicKey signer] |}.

Definition TransactionSignature := string.

Record ConfirmStrategy := {
  cs_signature : TransactionSignature;
  cs_blockhash : string;
  cs_lastValidBlockHeight : Z
}.

Record SendOptions := { skipPreflight : bool }.

(** The Anchor program handle of the context. *)
Record Program := { programId : PublicKey }.

(** A JS value read with [!==]: a number, or an object such as a BN. *)
Inductive JsValue :=
| JsNumber (n : Z)
| JsObject (repr : string).

(** [v !== 0] *)
Definition strict_neq_zero (v : JsValue) : bool :=
  match v with
  | JsNumber n => negb (n =? 0)
  | JsObject _ => true
  end.

Record MintAccount := { supply : JsValue }.

Record Amm := { amm_publicKey : PublicKey }.

(** ** Errors *)

(** What a wrapped SDK or RPC call throws. *)
Record SdkError := { sdk_message : string }.

(** A thrown JS value, by where it was created: by a wrapped call, by a
    [new Error(message)] of these files, or by the runtime, on a property
    read of [undefined] or on the read of an identifier that nothing
    binds. *)
Inductive JsError :=
| Raised (e : SdkError)
| NewError (message : string)
| TypeError (message : string)
| ReferenceError (message : string).

Inductive SdkOutcome (X : Type) :=
| Fulfilled (x : X)
| Rejected (e : SdkError).
Arguments Fulfilled {X} x.
Arguments Rejected {X} e.

Inductive Completion (A : Type) :=
| Normal (a : A)
| Throw (e : JsError).
Arguments Normal {A} a.
Arguments Throw {A} e.

Section Calls.

(** [ProposalInstruction] and [SwapType] are declared outside the two
    files; the code only passes their values on. *)
Context {ProposalInstruction SwapType : Type}.

Record InitializeProposalParams := {
  descriptionUrl : string;
  instruction : ProposalInstruction;
  passLpTokensToLock : Z;
  failLpTokensToLock : Z;
  nonce : Z
}.

Record InitializeProposalAccounts := {
  acc_proposal : PublicKey;
  acc_dao : option PublicKey;
  acc_failAmm : PublicKey;
  acc_passAmm : PublicKey;
  acc_proposer : PublicKey
}.

(** The builder object that [program.methods.initializeProposal(...)]
    returns; the hook only calls its methods. *)
Record MethodsBuilder := { builder_handle : string }.

(** The arguments of [ammClient.createAmm], in call order. *)
Record CreateAmmArgs := {
  ca_proposal : PublicKey;
  ca_baseMint : PublicKey;
  ca_quoteMint : PublicKey;
  ca_twapInitialObservation : Z;
  ca_pof : string;
  ca_uri : string;
  ca_proposalNumber : Z;
  ca_base : PublicKey;
  ca_quote : PublicKey;
  ca_a : Z;
  ca_twapMaxObservationChangePerUpdate : Z
}.

(** The requests the two files make to code outside the repository,
    indexed by the type of the reply. *)
Inductive Call : Type -> Type :=
| Keypair_generate : Call Keypair
| proposal_createInstruction (program : Program) (signer : Keypair)
    (sizeOverride : Z) : Call TransactionInstruction
| methods_initializeProposal (program : Program)
    (params : InitializeProposalParams) : Call MethodsBuilder
| builder_accounts (builder : MethodsBuilder)
    (accounts : InitializeProposalAccounts) : Call MethodsBuilder
| builder_instruction (builder : MethodsBuilder) : Call TransactionInstruction
| getLatestBlockhash : Call BlockhashWithExpiryBlockHeight
| Transaction_sign (tx : Transaction) (signer : Keypair) : Call unit
| wallet_signAllTransactions (txs : list Transaction) : Call (list Transaction)
| Transaction_serialize (tx : Transaction) : Call Buffer
| sendRawTransaction (raw : Buffer) (options : SendOptions)
    : Call TransactionSignature
| confirmTransaction (strategy : ConfirmStrategy) (commitment : string)
    : Call unit
| mint_fetch (program : Program) (address : PublicKey) : Call MintAccount
| PublicKey_findProgramAddress (seeds : list Buffer) (programId : PublicKey)
    : Call (PublicKey * Z)
| ammClient_createAmm (args : CreateAmmArgs) : Call unit
| ammClient_getAmm (address : PublicKey) : Call Amm
| ammClient_swap (amm : PublicKey) (swapType : SwapType)
    (inputAmount outputAmountMin : Z) : Call unit.

(** What an observer of a run sees: each request with its reply, and each
    [console.error]. *)
Inductive Event :=
| Called {X : Type} (c : Call X) (r : SdkOutcome X)
| ConsoleError (label : string) (e : JsError).

Definition Trace := list Event.

(** The outside world answers a request knowing everything that happened
    before it. *)
Definition World := forall X : Type, Trace -> Call X -> SdkOutcome X.

(** ** Asynchronous code as a state-and-error monad over the trace *)

Definition Async (A : Type) := World -> Trace -> Completion A * Trace.

Definition ret {A} (a : A) : Async A := fun _ t => (Normal a, t).

Definition throw {A} (e : JsError) : Async A := fun _ t => (Throw e, t).

Definition bind {A B} (m : Async A) (k : A -> Async B) : Async B :=
  fun w t =>
    match m w t with
    | (Normal a, t') => k a w t'
    | (Throw e, t') => (Throw e, t')
    end.

(** [await f(args)] for a wrapped call. *)
Definition call {X} (c : Call X) : Async X :=
  fun w t =>
    match w X t c with
    | Fulfilled x => (Normal x, t ++ [Called c (Fulfilled x)])
    | Rejected e => (Throw (Raised e), t ++ [Called c (Rejected e)])
    end.

Definition console_error (label : string) (e : JsError) : Async unit :=
  fun _ t => (Normal tt, t ++ [ConsoleError label e]).

(** [try { body } catch (err) { handler }] *)
Definition try_catch {A} (body : Async A) (handler : JsError -> Async A)
    : Async A :=
  fun w t =>
    match body w t with
    | (Normal a, t') => (Normal a, t')
    | (Throw e, t') => handler e w t'
    end.

(** The promise returned by calling an async function: its settled state. *)
Definition attempt {A} (m : Async A) : Async (Completion A) :=
  fun w t => let (c, t') := m w t in (Normal c, t').

Fixpoint map_async {A B} (f : A -> Async B) (l : list A) : Async (list B) :=
  match l with
  | [] => ret []
  | a :: l' => bind (f a) (fun b => bind (map_async f l') (fun bs => ret (b :: bs)))
  end.

End Calls.

Arguments Call : clear implicits.
Arguments Event : clear implicits.
Arguments Trace : clear implicits.
Arguments World : clear implicits.
Arguments Async : clear implicits.
Arguments InitializeProposalParams : clear implicits.

Declare Scope async_scope.
Delimit Scope async_scope with async.
Notation "x <- m ;; k" := (bind m (fun x => k))
  (at level 61, m at next level, right associativity) : async_scope.
Notation "m ;;; k" := (bind m (fun _ => k))
  (at level 61, right associativity) : async_scope.

Local Open Scope async_scope.

(** ** Tokens, DAO accounts and the values of the context *)

(** Only [publicKey] is read by the two files; [symbol] stands for the
    descriptive part of a token. *)
Record Token := { token_publicKey : PublicKey; token_symbol : string }.

(** A [TokensDict] is a JS object used as a dictionary: its keys (token
    names, so property order is insertion order), each with a token or with
    [undefined]. *)
Definition TokensDict := list (string * option Token).

(** [d.k], also [undefined] when the key is absent. *)
Definition dict_get (d : TokensDict) (k : string) : option Token :=
  match find (fun e => String.eqb (fst e) k) d with
  | Some (_, v) => v
  | None => None
  end.

(** Assignment of one property: an existing key keeps its place. *)
Fixpoint dict_set (d : TokensDict) (k : string) (v : option Token)
    : TokensDict :=
  match d with
  | [] => [(k, v)]
  | (k', v') :: d' =>
      if String.eqb k' k then (k', v) :: d' else (k', v') :: dict_set d' k v
  end.

(** [{ ...a, ...b }] continued from an object [a] already built. *)
Definition spread (a b : TokensDict) : TokensDict :=
  fold_left (fun acc e => dict_set acc (fst e) (snd e)) b a.

(** The object literal [{ ...o1, ...o2, ... }]. *)
Definition spread_all (os : list TokensDict) : TokensDict :=
  fold_left spread os [].

(** [daoTokens?.k] *)
Definition opt_dict_get (d : option TokensDict) (k : string) : option Token :=
  match d with
  | Some d => dict_get d k
  | None => None
  end.

(** The fields of a DAO account that the provider reads; [treasury] and
    [tokenMint] may be missing from an account. *)
Record DaoState := {
  treasury : option PublicKey;
  tokenMint : option PublicKey;
  twapInitialObservation : Z;
  twapMaxObservationChangePerUpdate : Z
}.

(** An element of [program.account.dao.all()]. *)
Record DaoAccount := { dao_publicKey : PublicKey; dao_account : DaoState }.

Record ProgramVersion := {
  label : string;
  version_programId : PublicKey;
  version_dao : string
}.

(** The part of the wallet adapter state that the hook reads;
    [has_signAllTransactions] tells whether the wallet exposes the
    [signAllTransactions] method. *)
Record WalletContextState := {
  wallet_publicKey : option PublicKey;
  has_signAllTransactions : bool
}.

(** [wallet?.publicKey] *)
Definition opt_wallet_publicKey (w : option WalletContextState)
    : option PublicKey :=
  match w with
  | Some w => wallet_publicKey w
  | None => None
  end.

(** [wallet.signAllTransactions], read after [wallet?.publicKey] was found
    truthy. *)
Definition opt_wallet_signAll (w : option WalletContextState) : bool :=
  match w with
  | Some w => has_signAllTransactions w
  | None => false
  end.

(** ** [src/hooks/useInitializeProposal.ts] *)

Section UseInitializeProposal.

Context {ProposalInstruction SwapType : Type}.

Local Abbreviation Async := (Async ProposalInstruction SwapType).

(** The read of an identifier that the file neither declares nor imports:
    module code has no scope around it but the global one, which is taken
    not to hold the name either, so the runtime throws. *)
Definition unbound_identifier {A} (name : string) : Async A :=
  throw (ReferenceError (name ++ " is not defined")).

(** How far one of the async callbacks of [signedTxs.map] got before its
    first wait on the network. *)
Inductive Submission :=
| SerializeThrew (e : JsError)
| SendRejected (e : JsError)
| Sent (signature : TransactionSignature).

(** The synchronous start of the callback: [tx.serialize()] and the call
    of [connection.sendRawTransaction]. *)
Definition submit (tx : Transaction) : Async Submission :=
  r <- attempt (call (Transaction_serialize tx)) ;;
  match r with
  | Throw e => ret (SerializeThrew e)
  | Normal raw =>
      s <- attempt (call (sendRawTransaction raw {| skipPreflight := true |})) ;;
      match s with
      | Throw e => ret (SendRejected e)
      | Normal signature => ret (Sent signature)
      end
  end.

(** The rest of the callback: [connection.confirmTransaction] once the
    signature is known. *)
Definition confirm (latestBlockhash : BlockhashWithExpiryBlockHeight)
    (s : Submission) : Async (Completion unit) :=
  match s with
  | SerializeThrew e => ret (Throw e)
  | SendRejected e => ret (Throw e)
  | Sent signature =>
      attempt (call (confirmTransaction
        {| cs_signature := signature;
           cs_blockhash := blockhash latestBlockhash;
           cs_lastValidBlockHeight := lastValidBlockHeight latestBlockhash |}
        "confirmed"))
  end.

Fixpoint first_serialize_throw (l : list Submission) : option JsError :=
  match l with
  | [] => None
  | SerializeThrew e :: _ => Some e
  | _ :: l' => first_serialize_throw l'
  end.

Fixpoint first_send_rejected (l : list Submission) : option JsError :=
  match l with
  | [] => None
  | SendRejected e :: _ => Some e
  | _ :: l' => first_send_rejected l'
  end.

Fixpoint first_throw {A} (l : list (Completion A)) : option JsError :=
  match l with
  | [] => None
  | Throw e :: _ => Some e
  | Normal _ :: l' => first_throw l'
  end.

(** [Promise.all]: fulfilled when every promise is, rejected with the
    rejection that comes first otherwise.  Replies are taken to arrive in
    the order the requests were issued: a synchronous throw of [serialize]
    comes before every network rejection, a rejected send before every
    rejected confirmation, and each kind in index order. *)
Definition Promise_all (started : list Submission)
    (settled : list (Completion unit)) : Completion unit :=
  match first_serialize_throw started with
  | Some e => Throw e
  | None =>
      match first_send_rejected started with
      | Some e => Throw e
      | None =>
          match first_throw settled with
          | Some e => Throw e
          | None => Normal tt
          end
      end
  end.

(** A call of [initializeProposal].  The arguments of [add] are evaluated
    in order: the awaited [createInstruction], then the builder chain, whose
    [accounts] argument reads [failAmm] and [passAmm] at lines 41-42.  The
    file binds neither name (its imports are lines 1-4), so the read of
    [failAmm] throws and what follows it in the source is never reached; it
    is kept here as it is written.  The trace lists every request the call
    causes. *)

Definition initializeProposal
    (program : option Program) (daoKey daoTreasuryKey : option PublicKey)
    (daoTokens : option TokensDict) (wallet : option WalletContextState)
    (url : string) (instruction : ProposalInstruction) : Async unit :=
  let baseToken := opt_dict_get daoTokens "baseToken" in
  let quoteToken := opt_dict_get daoTokens "quoteToken" in
  match opt_wallet_publicKey wallet, opt_wallet_signAll wallet,
        baseToken, quoteToken, daoTreasuryKey, program with
  | Some wallet_publicKey, true, Some _, Some _, Some _, Some program =>
      proposalKeypair <- call Keypair_generate ;;
      ix1 <- call (proposal_createInstruction program proposalKeypair 1500) ;;
      builder <- call (methods_initializeProposal program
                   {| descriptionUrl := url;
                      instruction := instruction;
                      passLpTokensToLock := 0;
                      failLpTokensToLock := 0;
                      nonce := 0 |}) ;;
      failAmm <- unbound_identifier "failAmm" ;;
      passAmm <- unbound_identifier "passAmm" ;;
      builder <- call (builder_accounts builder
                   {| acc_proposal := kp_publicKey proposalKeypair;
                      acc_dao := daoKey;
                      acc_failAmm := failAmm;
                      acc_passAmm := passAmm;
                      acc_proposer := wallet_publicKey |}) ;;
      ix2 <- call (builder_instruction builder) ;;
      let initProposalTx := Transaction_add new_Transaction [ix1; ix2] in
      latestBlockhash <- call getLatestBlockhash ;;
      let initProposalTx := set_feePayer initProposalTx wallet_publicKey in
      let initProposalTx :=
        set_recentBlockhash initProposalTx (blockhash latestBlockhash) in
      call (Transaction_sign initProposalTx proposalKeypair) ;;;
      let initProposalTx := signed_by initProposalTx proposalKeypair in
      signedTxs <- call (wallet_signAllTransactions [initProposalTx]) ;;
      started <- map_async submit signedTxs ;;
      settled <- map_async (confirm latestBlockhash) started ;;
      match Promise_all started settled with
      | Normal _ => ret tt
      | Throw e => throw e
      end
  | _, _, _, _, _, _ => ret tt
  end.

End UseInitializeProposal.

(** ** [src/unnamed/part_000]: the [AutocratProvider] *)

(** An entry of the hard-coded [DAOS] list. *)
Record DaoInfo := { info_publicKey : PublicKey }.

(** [provider.wallet] *)
Record AnchorWallet := { anchor_publicKey : PublicKey }.

(** [arr[n]] on a JS array: [undefined] outside [0 .. length-1]. *)
Definition Array_get {A} (arr : list A) (n : Z) : option A :=
  if n <? 0 then None else nth_error arr (Z.to_nat n).

Definition Array_length {A} (arr : list A) : Z := Z.of_nat (List.length arr).

(** [arr.find(p)] with a callback that may throw. *)
Fixpoint Array_find {A} (p : A -> Completion bool) (arr : list A)
    : Completion (option A) :=
  match arr with
  | [] => Normal None
  | x :: arr' =>
      match p x with
      | Throw e => Throw e
      | Normal true => Normal (Some x)
      | Normal false => Array_find p arr'
      end
  end.

(** [arr.filter(p)] with a callback that may throw. *)
Fixpoint Array_filter {A} (p : A -> Completion bool) (arr : list A)
    : Completion (list A) :=
  match arr with
  | [] => Normal []
  | x :: arr' =>
      match p x with
      | Throw e => Throw e
      | Normal b =>
          match Array_filter p arr' with
          | Throw e => Throw e
          | Normal xs => Normal (if b then x :: xs else xs)
          end
      end
  end.

(** [arr.sort(cmp)].  The engine's sort is modelled as an insertion sort
    that asks the comparator: each element in turn is placed in the sorted
    prefix before the first element that the comparator puts after it.
    Which of two elements that the comparator does not order consistently
    comes first depends on the engine; nothing below relies on it. *)
Fixpoint sort_insert {A} (cmp : A -> A -> Z) (x : A) (sorted : list A)
    : list A :=
  match sorted with
  | [] => [x]
  | y :: sorted' =>
      if 0 <? cmp y x then x :: y :: sorted'
      else y :: sort_insert cmp x sorted'
  end.

Definition Array_sort {A} (cmp : A -> A -> Z) (arr : list A) : list A :=
  fold_left (fun sorted x => sort_insert cmp x sorted) arr [].

Section ActiveDao.

Variable DAOS : list DaoInfo.

(** [(dao) => dao.publicKey.toString() === DAOS[0].publicKey.toString()] *)
Definition matches_first_DAO (dao : DaoAccount) : Completion bool :=
  match Array_get DAOS 0 with
  | None =>
      Throw (TypeError "Cannot read properties of undefined (reading 'publicKey')")
  | Some d0 =>
      Normal (String.eqb (PublicKey_toString (dao_publicKey dao))
                         (PublicKey_toString (info_publicKey d0)))
  end.

(** Lines 99-104: [daos?.find(...)], then the first fetched DAO when
    nothing matched. *)
Definition selectedDao (daos : option (list DaoAccount))
    : Completion (option DaoAccount) :=
  match daos with
  | None => Normal None
  | Some daos =>
      match Array_find matches_first_DAO daos with
      | Throw e => Throw e
      | Normal (Some dao) => Normal (Some dao)
      | Normal None => Normal (Array_get daos 0)
      end
  end.

End ActiveDao.

(** [selectedDao?.publicKey] *)
Definition daoKey (selected : option DaoAccount) : option PublicKey :=
  option_map dao_publicKey selected.

(** [selectedDao?.account.treasury] *)
Definition daoTreasuryKey (selected : option DaoAccount) : option PublicKey :=
  match selected with
  | Some dao => treasury (dao_account dao)
  | None => None
  end.

(** [selectedDao?.account] *)
Definition daoState (selected : option DaoAccount) : option DaoState :=
  option_map dao_account selected.

Section ProgramVersions.

Variable AUTOCRAT_VERSIONS : list ProgramVersion.

(** The value handed to the state setter by the context's
    [setProgramVersion]; [None] is [undefined]. *)
Definition setProgramVersion (n : Z) : option ProgramVersion :=
  if n <? Array_length AUTOCRAT_VERSIONS
  then Array_get AUTOCRAT_VERSIONS n
  else Array_get AUTOCRAT_VERSIONS 0.

End ProgramVersions.

(** *** Proposals *)

Record ProposalState := { number : Z; proposal_descriptionUrl : string }.

(** An element of [program.account.proposal.all()]; [fetched_title] and
    [fetched_description] tell whether the record has such a property of
    its own, and its value. *)
Record FetchedProposal := {
  fetched_publicKey : PublicKey;
  fetched_account : ProposalState;
  fetched_title : option string;
  fetched_description : option string
}.

Record Proposal := {
  title : string;
  description : string;
  publicKey : PublicKey;
  account : ProposalState
}.

(** [(a, b) => (a.account.number < b.account.number ? 1 : -1)] *)
Definition by_number_desc (a b : FetchedProposal) : Z :=
  if number (fetched_account a) <? number (fetched_account b) then 1 else -1.

(** [{ title: `Proposal ${prop.account.number}`, description: '', ...prop }]:
    the properties of [prop] overwrite the two defaults. *)
Definition with_defaults (prop : FetchedProposal) : Proposal :=
  {| title :=
       match fetched_title prop with
       | Some t => t
       | None => "Proposal " ++ Number_toString (number (fetched_account prop))
       end%string;
     description :=
       match fetched_description prop with
       | Some d => d
       | None => ""
       end;
     publicKey := fetched_publicKey prop;
     account := fetched_account prop |}.

(** Non-increasing order of [account.number] between two fetched records. *)
Definition number_ge (a b : FetchedProposal) : Prop :=
  number (fetched_account a) >= number (fetched_account b).

(** The effect of lines 224-235: the value given to [setProposals]. *)
Definition proposals (allProposals : option (list FetchedProposal))
    : list Proposal :=
  let props :=
    Array_sort by_number_desc
      (match allProposals with Some l => l | None => [] end) in
  map with_defaults props.

(** *** Token resolution *)

Section Tokens.

(** The token tables of [@/lib/constants], the values of the [Networks]
    enum and [JSON.stringify] come from outside the file. *)
Variables staticTokens devnetTokens mainnetTokens : TokensDict.
Variables Networks_Devnet Networks_Mainnet Networks_Custom : string.
Variable JSON_stringify : TokensDict -> string.

(** Lines 123-135, the [switch] on [network]. *)
Definition defaultTokens (network : string) : TokensDict :=
  if String.eqb network Networks_Devnet then
    spread_all [staticTokens; devnetTokens]
  else if String.eqb network Networks_Mainnet then
    spread_all [staticTokens; mainnetTokens]
  else if String.eqb network Networks_Custom then
    spread_all [staticTokens; mainnetTokens; devnetTokens]
  else
    spread_all [staticTokens; mainnetTokens; devnetTokens].

(** [(token) => token[1].publicKey.toString() === daoTokenPublicKey.toString()] *)
Definition is_dao_token (daoTokenPublicKey : option PublicKey)
    (token : string * option Token) : Completion bool :=
  match snd token with
  | None =>
      Throw (TypeError "Cannot read properties of undefined (reading 'publicKey')")
  | Some t =>
      match daoTokenPublicKey with
      | None =>
          Throw (TypeError "Cannot read properties of undefined (reading 'toString')")
      | Some k =>
          Normal (String.eqb (PublicKey_toString (token_publicKey t))
                             (PublicKey_toString k))
      end
  end.

(** The effect of lines 191-222, as a step on the stored [daoTokens]: how
    the effect completes, and the stored value afterwards. *)
Definition resolve_tokens (network : string) (programVersion : ProgramVersion)
    (daoState : option DaoState) (daoTokens : TokensDict)
    : Completion unit * TokensDict :=
  match daoState with
  | None => (Normal tt, daoTokens)
  | Some daoState =>
      let daoTokenPublicKey := tokenMint daoState in
      match Array_filter (is_dao_token daoTokenPublicKey)
                         (defaultTokens network) with
      | Throw e => (Throw e, daoTokens)
      | Normal daoToken =>
          match Array_get daoToken 0 with
          | None =>
              (Throw (TypeError "Cannot read properties of undefined (reading '1')"),
               daoTokens)
          | Some entry =>
              let baseToken := [("baseToken", snd entry)] in
              let quoteToken :=
                if negb (String.eqb (label programVersion) "V0.3")
                   && String.eqb network "devnet"
                then [("quoteToken", dict_get (defaultTokens network) "musdc")]
                else [("quoteToken", dict_get (defaultTokens network) "usdc")] in
              let usedTokens := spread_all [staticTokens; baseToken; quoteToken] in
              let mergedTokens := spread_all [daoTokens; usedTokens] in
              if negb (String.eqb (JSON_stringify mergedTokens)
                                  (JSON_stringify usedTokens))
              then (Normal tt, mergedTokens)
              else (Normal tt, daoTokens)
          end
      end
  end.

End Tokens.

(** *** [createAmm] and [swap] *)

Section AmmMethods.

Context {ProposalInstruction SwapType : Type}.

Local Abbreviation Async := (Async ProposalInstruction SwapType).

(** [AMM_PROGRAM_ID] of [@/sdk/src/constants] and [PublicKey.toBuffer]. *)
Variable AMM_PROGRAM_ID : PublicKey.
Variable PublicKey_toBuffer : PublicKey -> Buffer.

Definition createAmm
    (autocratProgram : option Program) (daoState : option DaoState)
    (daoTokens : TokensDict) (provider_wallet : option AnchorWallet)
    (pof uri : string) (proposalNumber : Z) (symbol : string) (a : Z)
    : Async unit :=
  match autocratProgram, daoState,
        dict_get daoTokens "baseToken", dict_get daoTokens "quoteToken",
        provider_wallet with
  | Some autocratProgram, Some daoState, Some baseToken, Some quoteToken,
    Some _ =>
      if PublicKey_equals (token_publicKey baseToken)
                          (token_publicKey quoteToken)
      then throw (NewError "Base and quote mints must be different")
      else
        baseMint <- call (mint_fetch autocratProgram (token_publicKey baseToken)) ;;
        if strict_neq_zero (supply baseMint)
        then throw (NewError "Base mint must have a supply of 0")
        else
          try_catch
            (found <- call (PublicKey_findProgramAddress
                       [Buffer_from "proposal";
                        Buffer_from (Number_toString proposalNumber)]
                       (programId autocratProgram)) ;;
             let proposalAddress := fst found in
             call (ammClient_createAmm
               {| ca_proposal := proposalAddress;
                  ca_baseMint := token_publicKey baseToken;
                  ca_quoteMint := token_publicKey quoteToken;
                  ca_twapInitialObservation := twapInitialObservation daoState;
                  ca_pof := pof;
                  ca_uri := uri;
                  ca_proposalNumber := proposalNumber;
                  ca_base := token_publicKey baseToken;
                  ca_quote := token_publicKey quoteToken;
                  ca_a := a;
                  ca_twapMaxObservationChangePerUpdate :=
                    twapMaxObservationChangePerUpdate daoState |}))
            (fun err =>
               console_error "Error creating AMM:" err ;;;
               throw err)
  | _, _, _, _, _ => ret tt
  end.

Definition swap
    (autocratProgram : option Program) (daoState : option DaoState)
    (daoTokens : TokensDict) (provider_wallet : option AnchorWallet)
    (swapType : SwapType) (inputAmount outputAmountMin : Z) : Async unit :=
  match autocratProgram, daoState,
        dict_get daoTokens "baseToken", dict_get daoTokens "quoteToken",
        provider_wallet with
  | Some autocratProgram, Some daoState, Some baseToken, Some quoteToken,
    Some _ =>
      found <- call (PublicKey_findProgramAddress
                 [Buffer_from "amm__";
                  PublicKey_toBuffer (token_publicKey baseToken);
                  PublicKey_toBuffer (token_publicKey quoteToken)]
                 AMM_PROGRAM_ID) ;;
      let ammPublicKey := fst found in
      amm <- call (ammClient_getAmm ammPublicKey) ;;
      try_catch
        (call (ammClient_swap (amm_publicKey amm) swapType
                              inputAmount outputAmountMin))
        (fun err =>
           console_error "Error swapping tokens:" err ;;;
           throw err)
  | _, _, _, _, _ => ret tt
  end.

End AmmMethods.

(** ** Vocabulary of the properties *)

(** The guard of [initializeProposal], lines 16-25: what has to be there
    for the hook to act. *)
Definition hook_unresolved (program : option Program)
    (daoTreasuryKey : option PublicKey) (daoTokens : option TokensDict)
    (wallet : option WalletContextState) : Prop :=
  opt_wallet_publicKey wallet = None \/
  opt_wallet_signAll wallet = false \/
  opt_dict_get daoTokens "baseToken" = None \/
  opt_dict_get daoTokens "quoteToken" = None \/
  daoTreasuryKey = None \/
  program = None.

(** The guard shared by [createAmm] and [swap]. *)
Definition provider_unresolved (autocratProgram : option Program)
    (daoState : option DaoState) (daoTokens : TokensDict)
    (provider_wallet : option AnchorWallet) : Prop :=
  autocratProgram = None \/
  daoState = None \/
  dict_get daoTokens "baseToken" = None \/
  dict_get daoTokens "quoteToken" = None \/
  provider_wallet = None.

Section Runs.

Context {ProposalInstruction SwapType : Type}.

Local Abbreviation Event := (Event ProposalInstruction SwapType).
Local Abbreviation World := (World ProposalInstruction SwapType).

(** The request [c] was made and rejected with [e] somewhere in [evs]. *)
Definition rejected_in (e : SdkError) (evs : list Event) : Prop :=
  exists X (c : Call ProposalInstruction SwapType X),
    In (Called c (Rejected e)) evs.

Definition is_getLatestBlockhash (ev : Event) : bool :=
  match ev with
  | Called getLatestBlockhash _ => true
  | _ => false
  end.

Definition is_signing (ev : Event) : bool :=
  match ev with
  | Called (Transaction_sign _ _) _ => true
  | Called (wallet_signAllTransactions _) _ => true
  | _ => false
  end.

(** The error of a rejected request. *)
Definition rejection_of (ev : Event) : option SdkError :=
  match ev with
  | Called _ (Rejected e) => Some e
  | _ => None
  end.

(** The requests that [createAmm] and [swap] delegate to: the AMM client's
    operations of the same names. *)
Definition is_amm_operation (ev : Event) : bool :=
  match ev with
  | Called (ammClient_createAmm _) _ => true
  | Called (ammClient_swap _ _ _ _) _ => true
  | _ => false
  end.

(** What follows the AMM client's reply [r]: nothing, or the log of its
    error. *)
Definition logged {X} (label : string) (r : SdkOutcome X) : list Event :=
  match r with
  | Fulfilled _ => []
  | Rejected e => [ConsoleError label (Raised e)]
  end.

(** How an operation completes after the AMM client's reply [r]. *)
Definition completion_of {X} (r : SdkOutcome X) : Completion unit :=
  match r with
  | Fulfilled _ => Normal tt
  | Rejected e => Throw (Raised e)
  end.

Definition is_derivation (ev : Event) : bool :=
  match ev with
  | Called (PublicKey_findProgramAddress _ _) _ => true
  | _ => false
  end.

(** The requests inside the [try] block of [createAmm], lines 265-282. *)
Definition in_createAmm_try (ev : Event) : bool :=
  is_amm_operation ev || is_derivation ev.

(** The request inside the [try] block of [swap], lines 311-312. *)
Definition in_swap_try (ev : Event) : bool := is_amm_operation ev.

(** An operation that keeps no error to itself: in every run, the error of
    a rejected request is what the operation throws, and the rejected
    request is the last one.  It is followed by the log of its error under
    [label] when it is one of the [guarded] requests, and by nothing
    otherwise. *)
Definition logs_and_rethrows (label : string) (guarded : Event -> bool)
    (op : Async ProposalInstruction SwapType unit) : Prop :=
  forall w t0 out tr,
    op w t0 = (out, tr) ->
    exists evs,
      tr = t0 ++ evs /\
      forall ev e,
        In ev evs ->
        rejection_of ev = Some e ->
        out = Throw (Raised e) /\
        exists before,
          evs = before ++ ev ::
                  (if guarded ev then [ConsoleError label (Raised e)] else []).


(** The address derivation of [swap], lines 300-307. *)
Definition derive_amm (AMM_PROGRAM_ID : PublicKey)
    (PublicKey_toBuffer : PublicKey -> Buffer) (base quote : Token)
    : Call ProposalInstruction SwapType (PublicKey * Z) :=
  PublicKey_findProgramAddress
    [Buffer_from "amm__";
     PublicKey_toBuffer (token_publicKey base);
     PublicKey_toBuffer (token_publicKey quote)]
    AMM_PROGRAM_ID.

(** The address derivation of [createAmm], lines 266-269. *)
Definition derive_proposal (program : Program) (proposalNumber : Z)
    : Call ProposalInstruction SwapType (PublicKey * Z) :=
  PublicKey_findProgramAddress
    [Buffer_from "proposal"; Buffer_from (Number_toString proposalNumber)]
    (programId program).

(** The arguments that [createAmm] passes to the AMM client, lines
    270-282. *)
Definition amm_args (state : DaoState) (base quote : Token) (pof uri : string)
    (proposalNumber a : Z) (found : PublicKey * Z) : CreateAmmArgs :=
  {| ca_proposal := fst found;
     ca_baseMint := token_publicKey base;
     ca_quoteMint := token_publicKey quote;
     ca_twapInitialObservation := twapInitialObservation state;
     ca_pof := pof;
     ca_uri := uri;
     ca_proposalNumber := proposalNumber;
     ca_base := token_publicKey base;
     ca_quote := token_publicKey quote;
     ca_a := a;
     ca_twapMaxObservationChangePerUpdate :=
       twapMaxObservationChangePerUpdate state |}.

(** The requests of the callbacks of [signedTxs.map], lines 56-68. *)
Definition is_submission (ev : Event) : bool :=
  match ev with
  | Called (Transaction_serialize _) _ => true
  | Called (sendRawTransaction _ _) _ => true
  | Called (confirmTransaction _ _) _ => true
  | _ => false
  end.

(** The argument of [program.methods.initializeProposal], lines 31-37. *)
Definition hook_params (url : string) (instruction : ProposalInstruction)
    : InitializeProposalParams ProposalInstruction :=
  {| descriptionUrl := url;
     instruction := instruction;
     passLpTokensToLock := 0;
     failLpTokensToLock := 0;
     nonce := 0 |}.

(** The three requests of the hook that come before line 41. *)
Definition is_opening (ev : Event) : bool :=
  match ev with
  | Called Keypair_generate _ => true
  | Called (proposal_createInstruction _ _ _) _ => true
  | Called (methods_initializeProposal _ _) _ => true
  | _ => false
  end.

(** How the hook completes after the reply [r] of the builder: with the
    error of the builder, or with the error of reading [failAmm]. *)
Definition after_builder (r : SdkOutcome MethodsBuilder) : Completion unit :=
  match r with
  | Fulfilled _ => Throw (ReferenceError "failAmm is not defined")
  | Rejected e => Throw (Raised e)
  end.

End Runs.

(** ** Concrete data for the examples *)

Module Demo.

Definition key (s : string) : PublicKey := {| toBase58 := s |}.

Definition META : Token :=
  {| token_publicKey := key "METAmint"; token_symbol := "META" |}.
Definition USDC : Token :=
  {| token_publicKey := key "USDCmint"; token_symbol := "USDC" |}.

Definition tokens : TokensDict :=
  [("baseToken", Some META); ("quoteToken", Some USDC)].


Definition state : DaoState :=
  {| treasury := Some (key "Treasury");
     tokenMint := Some (key "METAmint");
     twapInitialObservation := 1000;
     twapMaxObservationChangePerUpdate := 50 |}.

Definition program : Program := {| programId := key "Autocrat" |}.

Definition wallet : WalletContextState :=
  {| wallet_publicKey := Some (key "Wallet"); has_signAllTransactions := true |}.

Definition anchor_wallet : AnchorWallet :=
  {| anchor_publicKey := key "Wallet" |}.

Definition keypair : Keypair :=
  {| kp_publicKey := key "Proposal"; kp_secretKey := "secret" |}.

Definition latest : BlockhashWithExpiryBlockHeight :=
  {| blockhash := "hash-1"; lastValidBlockHeight := 200 |}.

Definition unavailable : SdkError := {| sdk_message := "503" |}.

(** Here a proposal instruction is its memo text and a swap type one of
    two directions. *)
Definition PI := string.
Definition Side := bool.

(** Every request succeeds; the wallet returns each transaction with its
    own signature added. *)
Definition friendly : World PI Side :=
  fun X _ c =>
    match c in Call _ _ X return SdkOutcome X with
    | Keypair_generate => Fulfilled keypair
    | proposal_createInstruction p kp _ =>
        Fulfilled {| ix_programId := key "System";
                     ix_keys := [kp_publicKey kp];
                     ix_data := "create" |}
    | methods_initializeProposal p params =>
        Fulfilled {| builder_handle := descriptionUrl params |}
    | builder_accounts builder accounts => Fulfilled builder
    | builder_instruction builder =>
        Fulfilled {| ix_programId := key "Autocrat";
                     ix_keys := [];
                     ix_data := builder_handle builder |}
    | getLatestBlockhash => Fulfilled latest
    | Transaction_sign _ _ => Fulfilled tt
    | wallet_signAllTransactions txs =>
        Fulfilled
          (map (fun tx =>
                  {| instructions := instructions tx;
                     feePayer := feePayer tx;
                     recentBlockhash := recentBlockhash tx;
                     signatures := key "Wallet" :: signatures tx |}) txs)
    | Transaction_serialize _ => Fulfilled "wire"
    | sendRawTransaction _ _ => Fulfilled "sig-1"
    | confirmTransaction _ _ => Fulfilled tt
    | mint_fetch _ _ => Fulfilled {| supply := JsNumber 0 |}
    | PublicKey_findProgramAddress _ _ => Fulfilled (key "Derived", 255)
    | ammClient_createAmm _ => Fulfilled tt
    | ammClient_getAmm _ => Fulfilled {| amm_publicKey := key "Market" |}
    | ammClient_swap _ _ _ _ => Fulfilled tt
    end.

(** As [friendly], but the AMM program refuses to create markets and to
    swap. *)
Definition amm_down : World PI Side :=
  fun X t c =>
    match c in Call _ _ X return SdkOutcome X with
    | ammClient_createAmm _ => Rejected unavailable
    | ammClient_swap _ _ _ _ => Rejected unavailable
    | c' => friendly _ t c'
    end.

(** As [friendly], but the program client fails to build the
    account-creation instruction. *)
Definition no_account : World PI Side :=
  fun X t c =>
    match c in Call _ _ X return SdkOutcome X with
    | proposal_createInstruction _ _ _ => Rejected unavailable
    | c' => friendly _ t c'
    end.

Definition versions : list ProgramVersion :=
  [ {| label := "V0.3"; version_programId := key "Auto3"; version_dao := "a" |};
    {| label := "V0.2"; version_programId := key "Auto2"; version_dao := "b" |} ].

Definition dao (k : string) : DaoAccount :=
  {| dao_publicKey := key k; dao_account := state |}.

Definition fetched (n : Z) : FetchedProposal :=
  {| fetched_publicKey := key "P";
     fetched_account := {| number := n; proposal_descriptionUrl := "" |};
     fetched_title := None;
     fetched_description := None |}.

End Demo.

(** ** The stored program version, lines 62-67 *)

(** [arr.indexOf(v)]: the first index that holds [v], or -1. *)
Fixpoint Array_indexOf_from {A} (same : A -> A -> bool) (arr : list A) (v : A)
    (i : Z) : Z :=
  match arr with
  | [] => -1
  | x :: arr' =>
      if same x v then i else Array_indexOf_from same arr' v (i + 1)
  end.

Definition Array_indexOf {A} (same : A -> A -> bool) (arr : list A) (v : A)
    : Z :=
  Array_indexOf_from same arr v 0.

(** [a === b] on version objects, which the model tells apart by their
    fields. *)
Definition ProgramVersion_same (a b : ProgramVersion) : bool :=
  String.eqb (label a) (label b)
  && PublicKey_equals (version_programId a) (version_programId b)
  && String.eqb (version_dao a) (version_dao b).

Section VersionStorage.

Variable AUTOCRAT_VERSIONS : list ProgramVersion.

(** [Number(text)] when it is an integer; [None] stands for [NaN] and for
    numbers that are not integers, which index nothing in an array. *)
Variable Number : string -> option Z.

(** [serialize: (value) => String(AUTOCRAT_VERSIONS.indexOf(value))];
    [None] is [undefined], which the array does not hold. *)
Definition serialize_version (value : option ProgramVersion) : string :=
  Number_toString
    (match value with
     | Some v => Array_indexOf ProgramVersion_same AUTOCRAT_VERSIONS v
     | None => -1
     end).

(** [deserialize: (value) => AUTOCRAT_VERSIONS[Number(value)]] *)
Definition deserialize_version (value : string) : option ProgramVersion :=
  match Number value with
  | Some i => Array_get AUTOCRAT_VERSIONS i
  | None => None
  end.

End VersionStorage.

(** ** Vocabulary for token dictionaries *)

Definition dict_keys (d : TokensDict) : list string := map fst d.

(** The own property [k] of [d], when there is one: [Some None] is a
    property that holds [undefined]. *)
Definition dict_entry (d : TokensDict) (k : string) : option (option Token) :=
  option_map snd (find (fun e => String.eqb (fst e) k) d).

(** [k in d] *)
Definition dict_has (d : TokensDict) (k : string) : bool :=
  match dict_entry d k with
  | Some _ => true
  | None => false
  end.

(** The key under which the effect of lines 191-222 looks up the quote
    token, lines 204-209. *)
Definition quote_name (network : string) (programVersion : ProgramVersion)
    : string :=
  if negb (String.eqb (label programVersion) "V0.3")
     && String.eqb network "devnet"
  then "musdc" else "usdc".

(** [usedTokens] of line 212, for the base token [base] found by the
    filter and the quote token [quote] looked up. *)
Definition usedTokens (staticTokens : TokensDict)
    (base quote : option Token) : TokensDict :=
  spread_all [staticTokens; [("baseToken", base)]; [("quoteToken", quote)]].

(** ** Vocabulary for address derivations *)

Section RunVocabulary.

Context {ProposalInstruction SwapType : Type}.

(** The seeds of an address derivation. *)
Definition derivation_seeds {X} (c : Call ProposalInstruction SwapType X)
    : list Buffer :=
  match c with
  | PublicKey_findProgramAddress seeds _ => seeds
  | _ => []
  end.

End RunVocabulary.

(** ** More concrete data: storage and token tables *)

Module Scenarios.

(** [Number(text)] on the decimal text of an integer. *)
Definition Number (text : string) : option Z :=
  option_map Z.of_int (NilZero.int_of_string text).

(** A version that [AUTOCRAT_VERSIONS] does not hold. *)
Definition retired : ProgramVersion :=
  {| label := "V0.1"; version_programId := Demo.key "Auto1";
     version_dao := "c" |}.

Definition V0_2 : ProgramVersion :=
  {| label := "V0.2"; version_programId := Demo.key "Auto2";
     version_dao := "b" |}.

Definition MUSDC : Token :=
  {| token_publicKey := Demo.key "mUSDCmint"; token_symbol := "mUSDC" |}.

Definition staticTokens : TokensDict := [("usdc", Some Demo.USDC)].
Definition devnetTokens : TokensDict :=
  [("meta", Some Demo.META); ("musdc", Some MUSDC)].
Definition mainnetTokens : TokensDict := [("meta", Some Demo.META)].

(** A stand-in for [JSON.stringify]: the properties in order, each with the
    mint address of its token; a property that holds [undefined] is left
    out. *)
Definition stringify (d : TokensDict) : string :=
  String.concat ","
    (flat_map (fun entry =>
                 match snd entry with
                 | Some token =>
                     [(fst entry ++ ":" ++ toBase58 (token_publicKey token))
                        %string]
                 | None => []
                 end) d).

(** The stored dictionary has the keys of [usedTokens] in their order, but
    base and quote are the wrong way round. *)
Definition swapped_tokens : TokensDict :=
  [("usdc", None); ("baseToken", Some Demo.USDC);
   ("quoteToken", Some Demo.META)].

End Scenarios.

(** * Properties *)

Create HintDb runs.

(** ** Stepping through asynchronous code *)

Lemma app_one_assoc {A} (t evs : list A) (ev : A) :
  (t ++ [ev]) ++ evs = t ++ ev :: evs.
Proof. now rewrite <- app_assoc. Qed.

(** Puts a trace that was extended step by step into the form
    [t0 ++ events]. *)
Ltac flatten_trace :=
  repeat rewrite app_one_assoc;
  repeat rewrite <- app_assoc;
  repeat rewrite app_nil_r;
  cbn [app].

(** One request of the run in hypothesis [H]: both replies of the world. *)
Ltac step_in H w :=
  match type of H with
  | context [w ?X ?t ?c] =>
      let r := fresh "reply" in
      let E := fresh "Ereply" in
      destruct (w X t c) as [r | r] eqn:E; cbn in H
  end.

Section HookRuns.

Context {ProposalInstruction SwapType : Type}.

Local Abbreviation World := (World ProposalInstruction SwapType).
Local Abbreviation Event := (Event ProposalInstruction SwapType).

Lemma rejected_in_here {X} (c : Call ProposalInstruction SwapType X) s
    (evs : list Event) :
  rejected_in s (Called c (Rejected s) :: evs).
Proof. exists X, c. now left. Qed.

Lemma rejected_in_cons s (ev : Event) evs :
  rejected_in s evs -> rejected_in s (ev :: evs).
Proof. intros (X & c & Hin). exists X, c. now right. Qed.

End HookRuns.

#[global] Hint Resolve rejected_in_here rejected_in_cons : runs.

(** ** The hook [initializeProposal] *)

Section HookProperties.

Context {ProposalInstruction SwapType : Type}.

Local Abbreviation World := (World ProposalInstruction SwapType).
Local Abbreviation Event := (Event ProposalInstruction SwapType).

Lemma initializeProposal_unresolved (w : World) t0 program daoKey treasuryKey
    daoTokens wallet url instruction :
  hook_unresolved program treasuryKey daoTokens wallet ->
  initializeProposal program daoKey treasuryKey daoTokens
    wallet url instruction w t0 = (Normal tt, t0).
Proof.
  unfold hook_unresolved, initializeProposal.
  intros [-> | [-> | [-> | [-> | [-> | ->]]]]];
    repeat match goal with
           | |- context [match ?o with Some _ => _ | None => _ end] =>
               destruct o
           | |- context [if ?b then _ else _] => destruct b
           end; reflexivity.
Qed.

(** The guard of the hook either turns the call away or finds everything
    it asks for. *)
Lemma hook_resolved_or_not program treasuryKey daoTokens wallet :
  hook_unresolved program treasuryKey daoTokens wallet \/
  exists p treasury base quote walletKey,
    program = Some p /\ treasuryKey = Some treasury /\
    opt_dict_get daoTokens "baseToken" = Some base /\
    opt_dict_get daoTokens "quoteToken" = Some quote /\
    opt_wallet_publicKey wallet = Some walletKey /\
    opt_wallet_signAll wallet = true.
Proof.
  unfold hook_unresolved.
  destruct (opt_wallet_publicKey wallet); [| auto].
  destruct (opt_wallet_signAll wallet); [| auto].
  destruct (opt_dict_get daoTokens "baseToken"); [| auto 10].
  destruct (opt_dict_get daoTokens "quoteToken"); [| auto 10].
  destruct treasuryKey; [| auto 10].
  destruct program; [| auto 10].
  right. eauto 12.
Qed.

(** Every run of the hook past its guard. *)
Lemma initializeProposal_runs (w : World) t0 program daoKey treasury
    daoTokens wallet walletKey base quote url instruction out tr :
  opt_wallet_publicKey wallet = Some walletKey ->
  opt_wallet_signAll wallet = true ->
  opt_dict_get daoTokens "baseToken" = Some base ->
  opt_dict_get daoTokens "quoteToken" = Some quote ->
  initializeProposal (Some program) daoKey (Some treasury) daoTokens wallet
    url instruction w t0 = (out, tr) ->
  exists generated rest1,
    tr = t0 ++ Called Keypair_generate generated :: rest1 /\
    match generated with
    | Rejected e => rest1 = [] /\ out = Throw (Raised e)
    | Fulfilled proposalKeypair =>
        exists created rest2,
          rest1 = Called (proposal_createInstruction program proposalKeypair
                            1500) created :: rest2 /\
          match created with
          | Rejected e => rest2 = [] /\ out = Throw (Raised e)
          | Fulfilled _ =>
              exists begun,
                rest2 = [Called (methods_initializeProposal program
                                   (hook_params url instruction)) begun] /\
                out = after_builder begun
          end
    end.
Proof.
  intros Hpk Hsign Hbase Hquote Hrun. unfold initializeProposal in Hrun.
  rewrite Hpk, Hsign, Hbase, Hquote in Hrun.
  unfold bind, call, unbound_identifier, throw in Hrun.
  step_in Hrun w.
  2:{ injection Hrun as <- <-. exists (Rejected reply), []. auto. }
  exists (Fulfilled reply).
  step_in Hrun w.
  2:{ injection Hrun as <- <-. flatten_trace.
      eexists. split; [reflexivity |].
      exists (Rejected reply0), []. auto. }
  step_in Hrun w; injection Hrun as <- <-; flatten_trace.
  - eexists. split; [reflexivity |].
    exists (Fulfilled reply0). eexists. split; [reflexivity |].
    exists (Fulfilled reply1). auto.
  - eexists. split; [reflexivity |].
    exists (Fulfilled reply0). eexists. split; [reflexivity |].
    exists (Rejected reply1). auto.
Qed.

Lemma opening_is_no_later_request (ev : Event) :
  is_opening ev = true ->
  is_getLatestBlockhash ev = false /\ is_signing ev = false /\
  is_submission ev = false.
Proof.
  destruct ev as [X c r | label e]; [| discriminate].
  destruct c; cbn; intros H; try discriminate; auto.
Qed.

Lemma filter_nothing {A} (keep drop : A -> bool) (l : list A) :
  (forall x, keep x = true -> drop x = false) ->
  forallb keep l = true -> filter drop l = [].
Proof.
  intros Hf. induction l as [| x l IH]; cbn; [reflexivity |].
  intros Hall. apply andb_true_iff in Hall as [Hx Hl].
  now rewrite (Hf x Hx), IH.
Qed.

(** Every run of the hook, whatever its guard finds. *)
Lemma initializeProposal_events (w : World) t0 program daoKey treasuryKey
    daoTokens wallet url instruction out tr :
  initializeProposal program daoKey treasuryKey daoTokens wallet
    url instruction w t0 = (out, tr) ->
  exists evs,
    tr = t0 ++ evs /\
    forallb is_opening evs = true /\
    (out = Normal tt <-> hook_unresolved program treasuryKey daoTokens wallet).
Proof.
  intros Hrun.
  destruct (hook_resolved_or_not program treasuryKey daoTokens wallet)
    as [Hno | (p & treasury & base & quote & walletKey
               & -> & -> & Hbase & Hquote & Hpk & Hsign)].
  { rewrite initializeProposal_unresolved in Hrun by assumption.
    injection Hrun as <- <-. exists []. rewrite app_nil_r.
    repeat split; auto. }
  assert (Hresolved : ~ hook_unresolved (Some p) (Some treasury) daoTokens
                        wallet).
  { unfold hook_unresolved. rewrite Hpk, Hsign, Hbase, Hquote.
    intros [H | [H | [H | [H | [H | H]]]]]; discriminate H. }
  destruct (initializeProposal_runs _ _ _ _ _ _ _ _ _ _ _ _ _ _
              Hpk Hsign Hbase Hquote Hrun)
    as (generated & rest1 & -> & Hrest1).
  eexists. split; [reflexivity |].
  destruct generated as [kp | s].
  2:{ destruct Hrest1 as [-> ->]. split; [reflexivity |].
      split; [discriminate | contradiction]. }
  destruct Hrest1 as (created & rest2 & -> & Hrest2).
  destruct created as [ix1 | s].
  2:{ destruct Hrest2 as [-> ->]. split; [reflexivity |].
      split; [discriminate | contradiction]. }
  destruct Hrest2 as (begun & -> & ->). split; [reflexivity |].
  split; [destruct begun; discriminate | contradiction].
Qed.

End HookProperties.

(** ** [createAmm] and [swap] *)

Section AmmProperties.

Context {ProposalInstruction SwapType : Type}.

Local Abbreviation World := (World ProposalInstruction SwapType).
Local Abbreviation Event := (Event ProposalInstruction SwapType).
Local Abbreviation Call := (Call ProposalInstruction SwapType).

Variable AMM_PROGRAM_ID : PublicKey.
Variable PublicKey_toBuffer : PublicKey -> Buffer.

(** Every run of [swap] past its guard. *)
Lemma swap_runs (w : World) t0 program state daoTokens base quote wallet
    swapType inputAmount outputAmountMin out tr :
  dict_get daoTokens "baseToken" = Some base ->
  dict_get daoTokens "quoteToken" = Some quote ->
  swap AMM_PROGRAM_ID PublicKey_toBuffer (Some program) (Some state) daoTokens
    (Some wallet) swapType inputAmount outputAmountMin w t0 = (out, tr) ->
  (exists e,
     tr = t0 ++ [Called (derive_amm AMM_PROGRAM_ID PublicKey_toBuffer base quote) (Rejected e)] /\
     out = Throw (Raised e)) \/
  (exists found e,
     tr = t0 ++ [Called (derive_amm AMM_PROGRAM_ID PublicKey_toBuffer base quote) (Fulfilled found);
                 Called (ammClient_getAmm (fst found)) (Rejected e)] /\
     out = Throw (Raised e)) \/
  (exists found amm r,
     tr = t0 ++ [Called (derive_amm AMM_PROGRAM_ID PublicKey_toBuffer base quote) (Fulfilled found);
                 Called (ammClient_getAmm (fst found)) (Fulfilled amm);
                 Called (ammClient_swap (amm_publicKey amm) swapType
                           inputAmount outputAmountMin) r]
             ++ logged "Error swapping tokens:" r /\
     out = completion_of r).
Proof.
  intros Hbase Hquote Hrun. unfold swap in Hrun.
  rewrite Hbase, Hquote in Hrun.
  unfold bind, try_catch, call, console_error, throw in Hrun.
  step_in Hrun w.
  2:{ left. injection Hrun as <- <-. eauto. }
  step_in Hrun w.
  2:{ right. left. injection Hrun as <- <-. flatten_trace. eauto. }
  right. right. step_in Hrun w; injection Hrun as <- <-; flatten_trace.
  - destruct reply1.
    eexists _, _, (Fulfilled tt). cbn. rewrite ?app_nil_r. split; reflexivity.
  - eexists _, _, (Rejected reply1). cbn. flatten_trace. split; reflexivity.
Qed.

(** Every run of [createAmm] past its guard. *)
Lemma createAmm_runs (w : World) t0 program state daoTokens base quote wallet
    pof uri proposalNumber symbol a out tr :
  dict_get daoTokens "baseToken" = Some base ->
  dict_get daoTokens "quoteToken" = Some quote ->
  createAmm (Some program) (Some state) daoTokens (Some wallet)
    pof uri proposalNumber symbol a w t0 = (out, tr) ->
  let fetch := mint_fetch program (token_publicKey base) in
  (PublicKey_equals (token_publicKey base) (token_publicKey quote) = true /\
   tr = t0 /\
   out = Throw (NewError "Base and quote mints must be different")) \/
  (exists e,
     tr = t0 ++ [Called fetch (Rejected e)] /\ out = Throw (Raised e)) \/
  (exists mint,
     strict_neq_zero (supply mint) = true /\
     tr = t0 ++ [Called fetch (Fulfilled mint)] /\
     out = Throw (NewError "Base mint must have a supply of 0")) \/
  (exists mint e,
     tr = t0 ++ [Called fetch (Fulfilled mint);
                 Called (derive_proposal program proposalNumber) (Rejected e);
                 ConsoleError "Error creating AMM:" (Raised e)] /\
     out = Throw (Raised e)) \/
  (exists mint found r,
     tr = t0 ++ [Called fetch (Fulfilled mint);
                 Called (derive_proposal program proposalNumber)
                        (Fulfilled found);
                 Called (ammClient_createAmm
                           (amm_args state base quote pof uri proposalNumber a
                                     found)) r]
             ++ logged "Error creating AMM:" r /\
     out = completion_of r).
Proof.
  intros Hbase Hquote Hrun fetch. unfold createAmm in Hrun.
  rewrite Hbase, Hquote in Hrun.
  destruct (PublicKey_equals (token_publicKey base) (token_publicKey quote))
    eqn:Heq.
  { left. injection Hrun as <- <-. auto. }
  right. unfold bind, try_catch, call, console_error, throw in Hrun.
  step_in Hrun w.
  2:{ left. injection Hrun as <- <-. eauto. }
  right. destruct (strict_neq_zero (supply reply)) eqn:Hsupply.
  { left. injection Hrun as <- <-. eauto. }
  right. cbn in Hrun. step_in Hrun w.
  2:{ left. injection Hrun as <- <-. flatten_trace. eauto. }
  right. step_in Hrun w; injection Hrun as <- <-; flatten_trace.
  - destruct reply1.
    eexists _, _, (Fulfilled tt). cbn. rewrite ?app_nil_r. split; reflexivity.
  - eexists _, _, (Rejected reply1). cbn. flatten_trace. split; reflexivity.
Qed.

Lemma createAmm_unresolved (w : World) t0 program state daoTokens wallet
    pof uri proposalNumber symbol a :
  provider_unresolved program state daoTokens wallet ->
  createAmm program state daoTokens wallet pof uri proposalNumber symbol a w t0
    = (Normal tt, t0).
Proof.
  unfold provider_unresolved, createAmm.
  intros [-> | [-> | [-> | [-> | ->]]]];
    repeat match goal with
           | |- context [match ?o with Some _ => _ | None => _ end] =>
               destruct o
           end; reflexivity.
Qed.

Lemma swap_unresolved (w : World) t0 program state daoTokens wallet
    swapType inputAmount outputAmountMin :
  provider_unresolved program state daoTokens wallet ->
  swap AMM_PROGRAM_ID PublicKey_toBuffer program state daoTokens wallet
    swapType inputAmount outputAmountMin w t0 = (Normal tt, t0).
Proof.
  unfold provider_unresolved, swap.
  intros [-> | [-> | [-> | [-> | ->]]]];
    repeat match goal with
           | |- context [match ?o with Some _ => _ | None => _ end] =>
               destruct o
           end; reflexivity.
Qed.

(** The guard of [createAmm] and [swap] either holds or names what is
    missing. *)
Lemma provider_resolved_or_not program state daoTokens wallet :
  provider_unresolved program state daoTokens wallet \/
  exists p st base quote wl,
    program = Some p /\ state = Some st /\
    dict_get daoTokens "baseToken" = Some base /\
    dict_get daoTokens "quoteToken" = Some quote /\ wallet = Some wl.
Proof.
  unfold provider_unresolved.
  destruct program; [| auto 10]. destruct state; [| auto 10].
  destruct (dict_get daoTokens "baseToken"); [| auto 10].
  destruct (dict_get daoTokens "quoteToken"); [| auto 10].
  destruct wallet; [| auto 10].
  right. eauto 10.
Qed.

(** Finds the place of a known event in a known list of events. *)
Ltac locate_event :=
  first
    [ exists []; reflexivity
    | eexists [_]; reflexivity
    | eexists [_; _]; reflexivity ].

(** Settles one run whose events are known. *)
Ltac check_events :=
  let ev := fresh "ev" in
  let e := fresh "e" in
  let Hin := fresh "Hin" in
  let Hrej := fresh "Hrej" in
  intros ev e Hin Hrej; cbn in Hin;
  repeat match type of Hin with
         | _ \/ _ => destruct Hin as [<- | Hin]
         | False => contradiction
         end;
  cbn in Hrej; try discriminate; injection Hrej as <-;
  (split; [reflexivity |]); cbn; locate_event.

(** C3: in every run of [createAmm] and of [swap], when the operation they
    delegate to (the AMM client's [createAmm], respectively [swap]) is
    rejected with an error, the run ends with [console.error] of exactly
    that error and throws exactly that error; in [createAmm] the same holds
    for the address derivation, which shares the [try] block.  The error of
    a request made before the [try] block (the mint fetch of [createAmm],
    the address derivation and the AMM fetch of [swap]) is thrown unchanged
    too, without a log.  In every case the rejected request is the last
    one: no error is swallowed or replaced and nothing is retried. *)
Theorem amm_methods_log_and_rethrow program state daoTokens wallet
    pof uri proposalNumber symbol a (swapType : SwapType)
    inputAmount outputAmountMin :
  logs_and_rethrows (ProposalInstruction := ProposalInstruction)
    (SwapType := SwapType) "Error creating AMM:" in_createAmm_try
    (createAmm program state daoTokens wallet pof uri proposalNumber symbol a)
  /\
  logs_and_rethrows (ProposalInstruction := ProposalInstruction)
    (SwapType := SwapType) "Error swapping tokens:" in_swap_try
    (swap AMM_PROGRAM_ID PublicKey_toBuffer program state daoTokens wallet
       swapType inputAmount outputAmountMin).
Proof.
  destruct (provider_resolved_or_not program state daoTokens wallet)
    as [Hno | (p & st & base & quote & wl & -> & -> & Hbase & Hquote & ->)].
  - split; intros w t0 out tr Hrun.
    + rewrite createAmm_unresolved in Hrun by assumption.
      injection Hrun as <- <-. exists []. rewrite app_nil_r.
      split; [reflexivity |]. intros ev e [].
    + rewrite swap_unresolved in Hrun by assumption.
      injection Hrun as <- <-. exists []. rewrite app_nil_r.
      split; [reflexivity |]. intros ev e [].
  - split; intros w t0 out tr Hrun.
    + destruct (createAmm_runs _ _ _ _ _ _ _ _ _ _ _ _ _ _ _ Hbase Hquote Hrun)
        as [(_ & -> & ->) | [(e & -> & ->) | [(mint & _ & -> & ->)
           | [(mint & e & -> & ->) | (mint & found & r & -> & ->)]]]].
      * exists []. rewrite app_nil_r. split; [reflexivity |]. intros ev e [].
      * eexists. split; [reflexivity |]. check_events.
      * eexists. split; [reflexivity |]. check_events.
      * eexists. split; [reflexivity |]. check_events.
      * destruct r as [[] | e]; (eexists; split; [reflexivity |]);
          check_events.
    + destruct (swap_runs _ _ _ _ _ _ _ _ _ _ _ _ _ Hbase Hquote Hrun)
        as [(e & -> & ->) | [(found & e & -> & ->)
           | (found & amm & r & -> & ->)]].
      * eexists. split; [reflexivity |]. check_events.
      * eexists. split; [reflexivity |]. check_events.
      * destruct r as [[] | e]; (eexists; split; [reflexivity |]);
          check_events.
Qed.

(** C6: past its guard, [swap(swapType, inputAmount, outputAmountMin)]
    first derives the program address of the seeds ['amm__', base token key,
    quote token key] under [AMM_PROGRAM_ID]; when that succeeds it fetches
    the AMM at the derived address; when that succeeds it calls
    [ammClient.swap] with the public key of the fetched AMM and the three
    arguments as given, and makes no other request. *)
Theorem swap_derives_fetches_delegates (w : World) t0 program state daoTokens
    base quote wallet (swapType : SwapType) inputAmount outputAmountMin
    out tr :
  dict_get daoTokens "baseToken" = Some base ->
  dict_get daoTokens "quoteToken" = Some quote ->
  swap AMM_PROGRAM_ID PublicKey_toBuffer (Some program) (Some state) daoTokens
    (Some wallet) swapType inputAmount outputAmountMin w t0 = (out, tr) ->
  exists derived rest1,
    tr = t0 ++
         Called (PublicKey_findProgramAddress
                   [Buffer_from "amm__";
                    PublicKey_toBuffer (token_publicKey base);
                    PublicKey_toBuffer (token_publicKey quote)]
                   AMM_PROGRAM_ID) derived
         :: rest1 /\
    match derived with
    | Rejected e => rest1 = [] /\ out = Throw (Raised e)
    | Fulfilled found =>
        exists fetched rest2,
          rest1 = Called (ammClient_getAmm (fst found)) fetched :: rest2 /\
          match fetched with
          | Rejected e => rest2 = [] /\ out = Throw (Raised e)
          | Fulfilled amm =>
              exists swapped,
                rest2 =
                  Called (ammClient_swap (amm_publicKey amm) swapType
                            inputAmount outputAmountMin) swapped
                  :: logged "Error swapping tokens:" swapped /\
                out = completion_of swapped
          end
    end.
Proof.
  intros Hbase Hquote Hrun.
  destruct (swap_runs _ _ _ _ _ _ _ _ _ _ _ _ _ Hbase Hquote Hrun)
    as [(e & -> & ->) | [(found & e & -> & ->) | (found & amm & r & -> & ->)]].
  - exists (Rejected e), []. split; [reflexivity |]. split; reflexivity.
  - exists (Fulfilled found). eexists. split; [reflexivity |].
    exists (Rejected e), []. split; [reflexivity |]. split; reflexivity.
  - exists (Fulfilled found). eexists. split; [reflexivity |].
    exists (Fulfilled amm). eexists. split; [reflexivity |].
    exists r. split; reflexivity.
Qed.

End AmmProperties.

(** ** The three operations together *)

Section ContextOperations.

Context {ProposalInstruction SwapType : Type}.

Local Abbreviation World := (World ProposalInstruction SwapType).

Variable AMM_PROGRAM_ID : PublicKey.
Variable PublicKey_toBuffer : PublicKey -> Buffer.

(** C2: a call of [initializeProposal], [createAmm] or [swap] made while
    the wallet is missing or one of the values its guard asks for is
    unresolved completes normally with [undefined] and leaves the trace as
    it was: no request is made (no transaction built or sent, no AMM client
    call) and nothing is thrown. *)
Theorem unresolved_operations_return_at_once (w : World) t0
    program daoKey treasuryKey hookTokens hookWallet url instruction
    autocratProgram state daoTokens providerWallet
    pof uri proposalNumber symbol a (swapType : SwapType)
    inputAmount outputAmountMin :
  (hook_unresolved program treasuryKey hookTokens hookWallet ->
   initializeProposal program daoKey treasuryKey hookTokens
     hookWallet url instruction w t0 = (Normal tt, t0)) /\
  (provider_unresolved autocratProgram state daoTokens providerWallet ->
   createAmm autocratProgram state daoTokens providerWallet
     pof uri proposalNumber symbol a w t0 = (Normal tt, t0)) /\
  (provider_unresolved autocratProgram state daoTokens providerWallet ->
   swap AMM_PROGRAM_ID PublicKey_toBuffer autocratProgram state daoTokens
     providerWallet swapType inputAmount outputAmountMin w t0
   = (Normal tt, t0)).
Proof.
  split; [| split].
  - apply initializeProposal_unresolved.
  - apply createAmm_unresolved.
  - apply swap_unresolved.
Qed.


End ContextOperations.

(** ** The provider's derived values *)

Lemma PublicKey_toString_eqb (a b : PublicKey) :
  String.eqb (PublicKey_toString a) (PublicKey_toString b) = true <-> a = b.
Proof.
  unfold PublicKey_toString. rewrite String.eqb_eq.
  destruct a as [a], b as [b]; cbn. split; congruence.
Qed.

Lemma PublicKey_toString_neqb (a b : PublicKey) :
  String.eqb (PublicKey_toString a) (PublicKey_toString b) = false <-> a <> b.
Proof.
  rewrite <- PublicKey_toString_eqb.
  destruct (String.eqb _ _); split; congruence.
Qed.

(** [find] with a callback that does not throw returns the first element
    that satisfies it. *)
Lemma Array_find_total {A} (p : A -> bool) (arr : list A) :
  Array_find (fun x => Normal (p x)) arr = Normal (find p arr).
Proof.
  induction arr as [| x arr IH]; cbn; [reflexivity |].
  destruct (p x); [reflexivity | exact IH].
Qed.

Lemma find_first {A} (p : A -> bool) (arr : list A) (m : A) :
  find p arr = Some m ->
  exists before after,
    arr = before ++ m :: after /\ p m = true /\
    forall x, In x before -> p x = false.
Proof.
  induction arr as [| x arr IH]; cbn; [discriminate |].
  destruct (p x) eqn:Hp.
  - intros [= ->]. exists [], arr. repeat split; auto. intros ? [].
  - intros Hfind. destruct (IH Hfind) as (before & after & -> & Hm & Hb).
    exists (x :: before), after. repeat split; auto.
    intros y [<- | Hy]; auto.
Qed.

(** C5: with [DAOS[0]] given, and for every fetched list of DAOs: if some
    fetched DAO has the public key of [DAOS[0]], the active DAO is the first
    such element; if none has, it is the first element of the list (none for
    an empty list); [daoKey], [daoTreasuryKey] and [daoState] are the
    [publicKey], [account.treasury] and [account] of the active DAO.  When no
    list was fetched there is no active DAO and the three are undefined. *)
Theorem active_dao_is_listed_match_or_first (d0 : DaoInfo) (others : list DaoInfo)
    (daos : list DaoAccount) :
  let DAOS := d0 :: others in
  (selectedDao DAOS None = Normal None /\
   daoKey None = None /\ daoTreasuryKey None = None /\ daoState None = None) /\
  exists active,
    selectedDao DAOS (Some daos) = Normal active /\
    (forall dao,
       In dao daos -> dao_publicKey dao = info_publicKey d0 ->
       exists before m after,
         daos = before ++ m :: after /\
         active = Some m /\
         dao_publicKey m = info_publicKey d0 /\
         forall x, In x before -> dao_publicKey x <> info_publicKey d0) /\
    ((forall dao, In dao daos -> dao_publicKey dao <> info_publicKey d0) ->
     active = hd_error daos) /\
    (forall m, active = Some m ->
       daoKey active = Some (dao_publicKey m) /\
       daoTreasuryKey active = treasury (dao_account m) /\
       daoState active = Some (dao_account m)).
Proof.
  intros DAOS. split; [repeat split |].
  set (p := fun dao : DaoAccount =>
              String.eqb (PublicKey_toString (dao_publicKey dao))
                         (PublicKey_toString (info_publicKey d0))).
  assert (Hsel : selectedDao DAOS (Some daos) =
                 Normal (match find p daos with
                         | Some dao => Some dao
                         | None => hd_error daos
                         end)).
  { unfold selectedDao.
    change (Array_find (matches_first_DAO DAOS) daos)
      with (Array_find (fun x => Normal (p x)) daos).
    rewrite Array_find_total. destruct (find p daos); [reflexivity |].
    now destruct daos. }
  eexists. split; [exact Hsel |]. split; [| split].
  - intros dao Hin Hkey. destruct (find p daos) as [m |] eqn:Hfind.
    + destruct (find_first _ _ _ Hfind) as (before & after & -> & Hm & Hb).
      exists before, m, after. repeat split; auto.
      * now apply PublicKey_toString_eqb.
      * intros x Hx. apply PublicKey_toString_neqb. now apply Hb.
    + apply (find_none _ _ Hfind) in Hin. unfold p in Hin.
      apply PublicKey_toString_neqb in Hin. contradiction.
  - intros Hnone. destruct (find p daos) as [m |] eqn:Hfind; [| reflexivity].
    apply find_some in Hfind as [Hin Hm].
    apply PublicKey_toString_eqb in Hm. now apply Hnone in Hin.
  - intros m Hm. rewrite Hm. repeat split.
Qed.

(** C8: [setProgramVersion(n)] stores [AUTOCRAT_VERSIONS[n]] when
    [n < AUTOCRAT_VERSIONS.length] and [AUTOCRAT_VERSIONS[0]] otherwise.
    Only the upper bound is checked: an [n] within the array selects that
    version, an [n] at or above the length selects version 0, and a negative
    [n] indexes the array directly, which gives [undefined]. *)
Theorem setProgramVersion_checks_upper_bound_only
    (AUTOCRAT_VERSIONS : list ProgramVersion) (n : Z) :
  (n < Array_length AUTOCRAT_VERSIONS ->
   setProgramVersion AUTOCRAT_VERSIONS n = Array_get AUTOCRAT_VERSIONS n) /\
  (Array_length AUTOCRAT_VERSIONS <= n ->
   setProgramVersion AUTOCRAT_VERSIONS n = hd_error AUTOCRAT_VERSIONS) /\
  (0 <= n < Array_length AUTOCRAT_VERSIONS ->
   exists v, nth_error AUTOCRAT_VERSIONS (Z.to_nat n) = Some v /\
             setProgramVersion AUTOCRAT_VERSIONS n = Some v) /\
  (n < 0 -> setProgramVersion AUTOCRAT_VERSIONS n = None).
Proof.
  unfold setProgramVersion, Array_length, Array_get.
  repeat split.
  - intros H. apply Z.ltb_lt in H. now rewrite H.
  - intros H. apply Z.ltb_ge in H. rewrite H. cbn.
    now destruct AUTOCRAT_VERSIONS.
  - intros [H0 H1].
    destruct (nth_error AUTOCRAT_VERSIONS (Z.to_nat n)) as [v |] eqn:Hn.
    + exists v. split; [reflexivity |].
      apply Z.ltb_lt in H1. rewrite H1.
      apply Z.ltb_ge in H0. now rewrite H0.
    + apply nth_error_None in Hn. lia.
  - intros H.
    assert (Hlt : (n <? Z.of_nat (List.length AUTOCRAT_VERSIONS)) = true)
      by (apply Z.ltb_lt; lia).
    rewrite Hlt. apply Z.ltb_lt in H. now rewrite H.
Qed.

(** ** Proposals *)

Section ProposalList.

Lemma sort_insert_perm (x : FetchedProposal) (sorted : list FetchedProposal) :
  Permutation (x :: sorted) (sort_insert by_number_desc x sorted).
Proof.
  induction sorted as [| y sorted IH]; cbn; [reflexivity |].
  destruct (0 <? by_number_desc y x); [reflexivity |].
  rewrite perm_swap. now constructor.
Qed.

Lemma sort_insert_sorted (x : FetchedProposal) (sorted : list FetchedProposal) :
  StronglySorted number_ge sorted ->
  StronglySorted number_ge (sort_insert by_number_desc x sorted).
Proof.
  induction 1 as [| y sorted Hs IH Hy]; cbn.
  - repeat constructor.
  - unfold by_number_desc at 1.
    destruct (number (fetched_account y) <? number (fetched_account x)) eqn:Hlt;
      cbn.
    + apply Z.ltb_lt in Hlt. constructor; [now constructor |].
      constructor; [unfold number_ge; lia |].
      eapply Forall_impl; [| exact Hy]. unfold number_ge. intros; lia.
    + apply Z.ltb_ge in Hlt. constructor; [exact IH |].
      eapply Permutation_Forall; [apply sort_insert_perm |].
      constructor; [unfold number_ge; lia | exact Hy].
Qed.

Lemma Array_sort_spec (arr sorted0 : list FetchedProposal) :
  StronglySorted number_ge sorted0 ->
  let result :=
    fold_left (fun sorted x => sort_insert by_number_desc x sorted)
              arr sorted0 in
  StronglySorted number_ge result /\ Permutation (sorted0 ++ arr) result.
Proof.
  revert sorted0. induction arr as [| x arr IH]; intros sorted0 Hs; cbn.
  - rewrite app_nil_r. split; [exact Hs | reflexivity].
  - destruct (IH _ (sort_insert_sorted x _ Hs)) as [Hsorted Hperm].
    split; [exact Hsorted |].
    rewrite <- Hperm. rewrite <- sort_insert_perm.
    symmetry. apply Permutation_middle.
Qed.

Lemma with_defaults_sorted (props : list FetchedProposal) :
  StronglySorted number_ge props ->
  StronglySorted
    (fun a b : Proposal => number (account a) >= number (account b))
    (map with_defaults props).
Proof.
  induction 1 as [| a l Hl IH Ha]; cbn; constructor; [exact IH |].
  apply Forall_map. eapply Forall_impl; [| exact Ha]. intros b Hb. exact Hb.
Qed.

(** C9: the [proposals] array of the context holds the fetched records
    (none when nothing was fetched), each completed with defaults, in
    non-increasing order of [account.number].  Every exposed entry comes
    from a fetched record with the same [publicKey] and [account]; when that
    record has no [title] of its own the entry's title is ['Proposal ']
    followed by its number, and when it has no [description] of its own the
    entry's description is empty. *)
Theorem proposals_sorted_by_number_with_defaults
    (allProposals : option (list FetchedProposal)) :
  let fetched := match allProposals with Some l => l | None => [] end in
  StronglySorted
    (fun a b : Proposal => number (account a) >= number (account b))
    (proposals allProposals) /\
  Permutation (map with_defaults fetched) (proposals allProposals) /\
  forall exposed,
    In exposed (proposals allProposals) ->
    exists prop,
      In prop fetched /\
      account exposed = fetched_account prop /\
      publicKey exposed = fetched_publicKey prop /\
      (fetched_title prop = None ->
       title exposed =
         ("Proposal " ++ Number_toString (number (account exposed)))%string) /\
      (fetched_description prop = None -> description exposed = "").
Proof.
  intros fetched.
  destruct (Array_sort_spec fetched [] (SSorted_nil _)) as [Hsorted Hperm].
  cbn in Hperm, Hsorted.
  unfold proposals. fold fetched. unfold Array_sort.
  split; [now apply with_defaults_sorted |].
  split; [now apply Permutation_map |].
  intros exposed Hin. apply in_map_iff in Hin as (prop & <- & Hin).
  exists prop. split.
  - eapply Permutation_in; [symmetry; exact Hperm | exact Hin].
  - unfold with_defaults. cbn. repeat split.
    + now intros ->.
    + now intros ->.
Qed.

End ProposalList.

(** ** Token resolution *)

Section TokenResolution.

Variables staticTokens devnetTokens mainnetTokens : TokensDict.
Variables Networks_Devnet Networks_Mainnet Networks_Custom : string.
Variable JSON_stringify : TokensDict -> string.

(** Without a token of key [mint], the filter of lines 196-198 keeps
    nothing, or stops at an entry that holds no token. *)
Lemma filter_no_dao_token (mint : PublicKey) (dict : TokensDict) :
  (forall k token, In (k, Some token) dict -> token_publicKey token <> mint) ->
  Array_filter (is_dao_token (Some mint)) dict = Normal [] \/
  (Array_filter (is_dao_token (Some mint)) dict =
     Throw (TypeError
              "Cannot read properties of undefined (reading 'publicKey')") /\
   exists k, In (k, None) dict).
Proof.
  induction dict as [| [k v] dict IH]; intros Hall; [now left |].
  destruct v as [token |].
  - assert (Hne : token_publicKey token <> mint)
      by (apply (Hall k); now left).
    apply PublicKey_toString_neqb in Hne.
    cbn -[PublicKey_toString]. rewrite Hne.
    destruct IH as [-> | [-> [k' Hk']]].
    + intros k' token' Hin. apply (Hall k'). now right.
    + now left.
    + right. split; [reflexivity |]. exists k'. now right.
  - right. split; [reflexivity |]. exists k. now left.
Qed.

(** C10: when a DAO state is resolved whose [tokenMint] is the public key
    of no token of the default dictionary of the current network, the effect
    throws a runtime [TypeError] and the stored [daoTokens] stays as it
    was.  When every entry of the dictionary holds a token, the filter
    result is empty and the error is the one of reading index 1 of its
    undefined first element. *)
Theorem unknown_dao_token_throws (network : string)
    (programVersion : ProgramVersion) (state : DaoState) (mint : PublicKey)
    (daoTokens : TokensDict) :
  let dictionary :=
    defaultTokens staticTokens devnetTokens mainnetTokens
      Networks_Devnet Networks_Mainnet Networks_Custom network in
  tokenMint state = Some mint ->
  (forall k token,
     In (k, Some token) dictionary -> token_publicKey token <> mint) ->
  exists message,
    resolve_tokens staticTokens devnetTokens mainnetTokens
      Networks_Devnet Networks_Mainnet Networks_Custom JSON_stringify
      network programVersion (Some state) daoTokens
    = (Throw (TypeError message), daoTokens) /\
    ((forall k, ~ In (k, None) dictionary) ->
     message = "Cannot read properties of undefined (reading '1')").
Proof.
  intros dictionary Hmint Hnone. unfold resolve_tokens. rewrite Hmint.
  fold dictionary.
  destruct (filter_no_dao_token mint dictionary Hnone) as [-> | [-> [k Hk]]].
  - eexists. split; [reflexivity | reflexivity].
  - eexists. split; [reflexivity |]. intros Hdefined.
    now apply Hdefined in Hk.
Qed.

End TokenResolution.

(** ** The embedding on concrete values *)

Example Number_toString_decimal :
  Number_toString 1500 = "1500" /\ Number_toString 0 = "0" /\
  Number_toString (-7) = "-7".
Proof. repeat split. Qed.

Example spread_keeps_place_of_overwritten_key :
  spread_all [[("meta", Some Demo.META); ("usdc", None)];
              [("usdc", Some Demo.USDC)];
              [("meta", None); ("new", Some Demo.META)]]
  = [("meta", None); ("usdc", Some Demo.USDC); ("new", Some Demo.META)].
Proof. reflexivity. Qed.

Example sort_is_descending :
  map (fun p => number (fetched_account p))
      (Array_sort by_number_desc
         [Demo.fetched 2; Demo.fetched 5; Demo.fetched 1; Demo.fetched 9])
  = [9; 5; 2; 1].
Proof. reflexivity. Qed.

Example own_title_overrides_default :
  title (with_defaults
           {| fetched_publicKey := Demo.key "Q";
              fetched_account := {| number := 5; proposal_descriptionUrl := "" |};
              fetched_title := Some "Fund the grant";
              fetched_description := None |}) = "Fund the grant".
Proof. reflexivity. Qed.

Example rejected_builder_is_rethrown :
  fst (initializeProposal (Some Demo.program) (Some (Demo.key "Dao"))
         (Some (Demo.key "Treasury")) (Some Demo.tokens) (Some Demo.wallet)
         "https://proposal" "memo" Demo.no_account [])
  = Throw (Raised Demo.unavailable).
Proof. reflexivity. Qed.

Example supply_must_be_the_number_zero :
  strict_neq_zero (JsNumber 0) = false /\
  strict_neq_zero (JsNumber 3) = true /\
  strict_neq_zero (JsObject "BN(0)") = true.
Proof. repeat split. Qed.

(** ** The properties on concrete runs *)

(** C1, at a call that passes the guard, in a world where every request
    succeeds: the hook generates the keypair, has the account-creation
    instruction built for it with size 1500, starts the builder of the
    initialization instruction with the url and the instruction, and then
    throws the [ReferenceError] of [failAmm].  No transaction is assembled,
    signed, submitted or confirmed. *)
Theorem initializeProposal_throws_before_the_transaction :
  initializeProposal (Some Demo.program) (Some (Demo.key "Dao"))
    (Some (Demo.key "Treasury")) (Some Demo.tokens) (Some Demo.wallet)
    "https://proposal" "memo" Demo.friendly []
  = (Throw (ReferenceError "failAmm is not defined"),
     [Called Keypair_generate (Fulfilled Demo.keypair);
      Called (proposal_createInstruction Demo.program Demo.keypair 1500)
             (Fulfilled {| ix_programId := Demo.key "System";
                           ix_keys := [Demo.key "Proposal"];
                           ix_data := "create" |});
      Called (methods_initializeProposal Demo.program
                {| descriptionUrl := "https://proposal";
                   instruction := "memo";
                   passLpTokensToLock := 0;
                   failLpTokensToLock := 0;
                   nonce := 0 |})
             (Fulfilled {| builder_handle := "https://proposal" |})]).
Proof. reflexivity. Qed.


Lemma demo_unresolved_calls_do_nothing :
  let w := Demo.friendly in
  (hook_unresolved (Some Demo.program) (Some (Demo.key "Treasury"))
     (Some Demo.tokens) None /\
   provider_unresolved (Some Demo.program) None Demo.tokens
     (Some Demo.anchor_wallet)) /\
  initializeProposal
    (Some Demo.program) (Some (Demo.key "Dao")) (Some (Demo.key "Treasury"))
    (Some Demo.tokens) None "https://proposal" "memo" w [] = (Normal tt, []) /\
  createAmm (Some Demo.program) None Demo.tokens (Some Demo.anchor_wallet)
    "pof" "uri" 7 "SYM" 3 w [] = (Normal tt, []) /\
  swap (Demo.key "Amm") toBase58 (Some Demo.program) None Demo.tokens
    (Some Demo.anchor_wallet) true 10 9 w [] = (Normal tt, []).
Proof.
  intros w.
  assert (Hhook : hook_unresolved (Some Demo.program)
                    (Some (Demo.key "Treasury")) (Some Demo.tokens) None)
    by (left; reflexivity).
  assert (Hprov : provider_unresolved (Some Demo.program) None Demo.tokens
                    (Some Demo.anchor_wallet))
    by (right; left; reflexivity).
  split; [split; assumption |].
  destruct (unresolved_operations_return_at_once (Demo.key "Amm")
              toBase58 w []
              (Some Demo.program) (Some (Demo.key "Dao"))
              (Some (Demo.key "Treasury")) (Some Demo.tokens) None
              "https://proposal" "memo"
              (Some Demo.program) None Demo.tokens (Some Demo.anchor_wallet)
              "pof" "uri" 7 "SYM" 3 true 10 9)
    as (H1 & H2 & H3).
  split; [exact (H1 Hhook) |]. split; [exact (H2 Hprov) | exact (H3 Hprov)].
Defined.

Lemma demo_amm_down_is_logged_and_rethrown :
  fst (createAmm (Some Demo.program) (Some Demo.state) Demo.tokens
         (Some Demo.anchor_wallet) "pof" "uri" 7 "SYM" 3 Demo.amm_down [])
    = Throw (Raised Demo.unavailable) /\
  fst (swap (Demo.key "Amm") toBase58 (Some Demo.program) (Some Demo.state)
         Demo.tokens (Some Demo.anchor_wallet) true 10 9 Demo.amm_down [])
    = Throw (Raised Demo.unavailable) /\
  exists before,
    snd (swap (Demo.key "Amm") toBase58 (Some Demo.program) (Some Demo.state)
           Demo.tokens (Some Demo.anchor_wallet) true 10 9 Demo.amm_down [])
    = before ++
      [Called (ammClient_swap (Demo.key "Market") true 10 9)
              (Rejected Demo.unavailable);
       ConsoleError "Error swapping tokens:" (Raised Demo.unavailable)].
Proof.
  destruct (amm_methods_log_and_rethrow (ProposalInstruction := Demo.PI)
              (Demo.key "Amm") toBase58
              (Some Demo.program) (Some Demo.state) Demo.tokens
              (Some Demo.anchor_wallet) "pof" "uri" 7 "SYM" 3 true 10 9)
    as [Hcreate Hswap].
  destruct (Hcreate Demo.amm_down [] _ _ eq_refl) as (evs1 & Hevs1 & Hall1).
  destruct (Hswap Demo.amm_down [] _ _ eq_refl) as (evs2 & Hevs2 & Hall2).
  cbn in Hevs1, Hevs2. subst evs1 evs2.
  split; [| split].
  - refine (proj1 (Hall1 _ Demo.unavailable
                     (or_intror (or_intror (or_introl eq_refl))) eq_refl)).
  - refine (proj1 (Hall2 _ Demo.unavailable
                     (or_intror (or_intror (or_introl eq_refl))) eq_refl)).
  - refine (proj2 (Hall2 _ Demo.unavailable
                     (or_intror (or_intror (or_introl eq_refl))) eq_refl)).
Defined.



Lemma demo_listed_dao_is_active :
  exists m,
    selectedDao [ {| info_publicKey := Demo.key "DaoB" |} ]
      (Some [Demo.dao "DaoA"; Demo.dao "DaoB"; Demo.dao "DaoC"])
    = Normal (Some m) /\
    dao_publicKey m = Demo.key "DaoB" /\
    daoKey (Some m) = Some (Demo.key "DaoB").
Proof.
  destruct (active_dao_is_listed_match_or_first
              {| info_publicKey := Demo.key "DaoB" |} []
              [Demo.dao "DaoA"; Demo.dao "DaoB"; Demo.dao "DaoC"])
    as (_ & active & Hsel & Hmatch & _ & Hkeys).
  destruct (Hmatch (Demo.dao "DaoB") (or_intror (or_introl eq_refl)) eq_refl)
    as (before & m & after & _ & Hactive & Hkey & _).
  exists m. subst active. split; [exact Hsel |]. split; [exact Hkey |].
  destruct (Hkeys m eq_refl) as (Hk & _). rewrite Hk, Hkey. reflexivity.
Defined.

Lemma demo_swap_run :
  let run :=
    swap (Demo.key "Amm") toBase58 (Some Demo.program) (Some Demo.state)
      Demo.tokens (Some Demo.anchor_wallet) true 10 9 Demo.friendly [] in
  (dict_get Demo.tokens "baseToken" = Some Demo.META /\
   dict_get Demo.tokens "quoteToken" = Some Demo.USDC) /\
  exists derived rest1,
    snd run = [] ++
         Called (PublicKey_findProgramAddress
                   [Buffer_from "amm__";
                    toBase58 (token_publicKey Demo.META);
                    toBase58 (token_publicKey Demo.USDC)]
                   (Demo.key "Amm")) derived
         :: rest1 /\
    match derived with
    | Rejected e => rest1 = [] /\ fst run = Throw (Raised e)
    | Fulfilled found =>
        exists fetched rest2,
          rest1 = Called (ammClient_getAmm (fst found)) fetched :: rest2 /\
          match fetched with
          | Rejected e => rest2 = [] /\ fst run = Throw (Raised e)
          | Fulfilled amm =>
              exists swapped,
                rest2 =
                  Called (ammClient_swap (amm_publicKey amm) true 10 9) swapped
                  :: logged "Error swapping tokens:" swapped /\
                fst run = completion_of swapped
          end
    end.
Proof.
  intros run. split; [split; reflexivity |].
  apply (swap_derives_fetches_delegates (Demo.key "Amm") toBase58
           Demo.friendly [] Demo.program Demo.state Demo.tokens
           Demo.META Demo.USDC Demo.anchor_wallet true 10 9
           (fst run) (snd run));
    reflexivity.
Defined.

Lemma demo_program_versions :
  setProgramVersion Demo.versions 1 = Array_get Demo.versions 1 /\
  setProgramVersion Demo.versions 2 = hd_error Demo.versions /\
  setProgramVersion Demo.versions (-1) = None.
Proof.
  split; [| split].
  - apply (setProgramVersion_checks_upper_bound_only Demo.versions 1).
    reflexivity.
  - apply (setProgramVersion_checks_upper_bound_only Demo.versions 2).
    cbn. lia.
  - apply (setProgramVersion_checks_upper_bound_only Demo.versions (-1)).
    reflexivity.
Defined.

Lemma demo_proposal_titles :
  let fetched := [Demo.fetched 1; Demo.fetched 3; Demo.fetched 2] in
  map (fun p => number (account p)) (proposals (Some fetched)) = [3; 2; 1] /\
  forall exposed,
    In exposed (proposals (Some fetched)) ->
    title exposed
      = ("Proposal " ++ Number_toString (number (account exposed)))%string /\
    description exposed = "".
Proof.
  intros fetched. split; [reflexivity |].
  intros exposed Hin.
  destruct (proposals_sorted_by_number_with_defaults (Some fetched))
    as (_ & _ & Hall).
  destruct (Hall exposed Hin) as (prop & Hprop & _ & _ & Htitle & Hdesc).
  assert (Hnone : fetched_title prop = None /\ fetched_description prop = None).
  { destruct Hprop as [<- | [<- | [<- | []]]]; split; reflexivity. }
  split; [apply Htitle | apply Hdesc]; apply Hnone.
Defined.

Lemma demo_unlisted_mint_throws :
  let static := [("usdc", Some Demo.USDC)] in
  let dictionary := defaultTokens static [] [] "devnet" "mainnet-beta" "custom"
                      "mainnet-beta" in
  (tokenMint Demo.state = Some (Demo.key "METAmint") /\
   (forall k token,
      In (k, Some token) dictionary ->
      token_publicKey token <> Demo.key "METAmint") /\
   (forall k, ~ In (k, None) dictionary)) /\
  resolve_tokens static [] [] "devnet" "mainnet-beta" "custom" (fun _ => "")
    "mainnet-beta" (hd {| label := ""; version_programId := Demo.key "";
                          version_dao := "" |} Demo.versions)
    (Some Demo.state) Demo.tokens
  = (Throw (TypeError "Cannot read properties of undefined (reading '1')"),
     Demo.tokens).
Proof.
  intros static dictionary.
  assert (Hother : forall k token,
            In (k, Some token) dictionary ->
            token_publicKey token <> Demo.key "METAmint").
  { intros k token [H | []]. injection H as _ <-. discriminate. }
  assert (Hdefined : forall k, ~ In (k, None) dictionary).
  { intros k [H | []]. discriminate. }
  split; [repeat split; assumption |].
  destruct (unknown_dao_token_throws static [] [] "devnet" "mainnet-beta"
              "custom" (fun _ => "") "mainnet-beta"
              (hd {| label := ""; version_programId := Demo.key "";
                     version_dao := "" |} Demo.versions)
              Demo.state (Demo.key "METAmint") Demo.tokens eq_refl Hother)
    as (message & Hrun & Hmessage).
  rewrite Hrun, (Hmessage Hdefined). reflexivity.
Defined.

(** ** The stored program version *)

Lemma ProgramVersion_same_eq (a b : ProgramVersion) :
  ProgramVersion_same a b = true <-> a = b.
Proof.
  unfold ProgramVersion_same, PublicKey_equals.
  rewrite !andb_true_iff, !String.eqb_eq.
  destruct a as [la [pa] da], b as [lb [pb] db]; cbn.
  split; [intros [[-> ->] ->]; reflexivity | intros [= -> -> ->]; auto].
Qed.

Lemma Array_indexOf_from_found {A} (same : A -> A -> bool) (arr : list A)
    (v : A) :
  (exists x, In x arr /\ same x v = true) ->
  forall i, exists k x,
    Array_indexOf_from same arr v i = i + Z.of_nat k /\
    nth_error arr k = Some x /\ same x v = true.
Proof.
  induction arr as [| y arr IH]; intros (x & Hin & Hx) i; [destruct Hin |].
  cbn. destruct (same y v) eqn:Hy.
  - exists 0%nat, y. cbn. repeat split; auto. lia.
  - destruct Hin as [-> | Hin]; [congruence |].
    destruct (IH (ex_intro _ x (conj Hin Hx)) (i + 1)) as (k & z & -> & Hk & Hz).
    exists (S k), z. repeat split; auto. lia.
Qed.

Lemma Array_indexOf_from_missing {A} (same : A -> A -> bool) (arr : list A)
    (v : A) :
  (forall x, In x arr -> same x v = false) ->
  forall i, Array_indexOf_from same arr v i = -1.
Proof.
  induction arr as [| y arr IH]; intros Hnone i; [reflexivity |].
  cbn. rewrite (Hnone y (or_introl eq_refl)).
  apply IH. intros x Hx. apply Hnone. now right.
Qed.

Section VersionStorageProperties.

Variable AUTOCRAT_VERSIONS : list ProgramVersion.
Variable Number : string -> option Z.

(** [Number] reads back the text that [String] writes for an integer. *)
Hypothesis Number_String : forall i, Number (Number_toString i) = Some i.

Lemma listed_version_round_trip (v : ProgramVersion) :
  In v AUTOCRAT_VERSIONS ->
  deserialize_version AUTOCRAT_VERSIONS Number
    (serialize_version AUTOCRAT_VERSIONS (Some v)) = Some v.
Proof.
  intros Hin. unfold deserialize_version, serialize_version.
  rewrite Number_String. unfold Array_indexOf.
  destruct (Array_indexOf_from_found ProgramVersion_same AUTOCRAT_VERSIONS v
              (ex_intro _ v (conj Hin (proj2 (ProgramVersion_same_eq v v)
                                             eq_refl))) 0)
    as (k & x & -> & Hk & Hx).
  apply ProgramVersion_same_eq in Hx. subst x.
  unfold Array_get. cbn [Z.add].
  destruct (Z.of_nat k <? 0) eqn:Hneg; [apply Z.ltb_lt in Hneg; lia |].
  now rewrite Nat2Z.id.
Qed.

Lemma unlisted_version_serialized (v : ProgramVersion) :
  ~ In v AUTOCRAT_VERSIONS ->
  serialize_version AUTOCRAT_VERSIONS (Some v) = "-1".
Proof.
  intros Hout. unfold serialize_version, Array_indexOf.
  rewrite Array_indexOf_from_missing; [reflexivity |].
  intros x Hx. destruct (ProgramVersion_same x v) eqn:Hsame; [| reflexivity].
  apply ProgramVersion_same_eq in Hsame. now subst x.
Qed.

Lemma minus_one_deserialized :
  deserialize_version AUTOCRAT_VERSIONS Number "-1" = None.
Proof.
  unfold deserialize_version.
  change "-1" with (Number_toString (-1)). now rewrite Number_String.
Qed.

(** X1: a version of [AUTOCRAT_VERSIONS] survives the local storage:
    [deserialize(serialize(v))] is [v] again. *)
Theorem stored_version_round_trip (v : ProgramVersion) :
  In v AUTOCRAT_VERSIONS ->
  deserialize_version AUTOCRAT_VERSIONS Number
    (serialize_version AUTOCRAT_VERSIONS (Some v)) = Some v.
Proof. apply listed_version_round_trip. Qed.

(** X2: what is not in [AUTOCRAT_VERSIONS] is lost in the local storage:
    [undefined] and every version outside the array are written as the
    text ["-1"], and that text reads back as [undefined]. *)
Theorem unlisted_version_is_stored_as_minus_one (value : option ProgramVersion) :
  (forall v, value = Some v -> ~ In v AUTOCRAT_VERSIONS) ->
  serialize_version AUTOCRAT_VERSIONS value = "-1" /\
  deserialize_version AUTOCRAT_VERSIONS Number
    (serialize_version AUTOCRAT_VERSIONS value) = None.
Proof.
  intros Hout.
  assert (Htext : serialize_version AUTOCRAT_VERSIONS value = "-1").
  { destruct value as [v |]; [| reflexivity].
    apply unlisted_version_serialized. now apply Hout. }
  rewrite Htext. split; [reflexivity | apply minus_one_deserialized].
Qed.

(** X3: whatever [setProgramVersion(n)] stores is read back unchanged from
    the local storage, for every integer [n]: a version of the array as
    itself, and [undefined] (negative [n], empty array) as [undefined]. *)
Theorem setProgramVersion_survives_storage (n : Z) :
  deserialize_version AUTOCRAT_VERSIONS Number
    (serialize_version AUTOCRAT_VERSIONS
       (setProgramVersion AUTOCRAT_VERSIONS n))
  = setProgramVersion AUTOCRAT_VERSIONS n.
Proof.
  destruct (setProgramVersion AUTOCRAT_VERSIONS n) as [v |] eqn:Hset.
  - apply listed_version_round_trip.
    unfold setProgramVersion, Array_get in Hset.
    destruct (n <? Array_length AUTOCRAT_VERSIONS).
    + destruct (n <? 0); [discriminate |]. eapply nth_error_In; eauto.
    + change (nth_error AUTOCRAT_VERSIONS 0 = Some v) in Hset.
      exact (nth_error_In _ _ Hset).
  - apply minus_one_deserialized.
Qed.

End VersionStorageProperties.

(** ** Token dictionaries: object spread and property lookup *)

Lemma dict_entry_cons (k0 : string) (v0 : option Token) (d : TokensDict)
    (k : string) :
  dict_entry ((k0, v0) :: d) k
  = if String.eqb k0 k then Some v0 else dict_entry d k.
Proof. unfold dict_entry. cbn. now destruct (String.eqb k0 k). Qed.

Lemma dict_get_entry (d : TokensDict) (k : string) :
  dict_get d k = match dict_entry d k with Some v => v | None => None end.
Proof.
  unfold dict_get, dict_entry.
  now destruct (find (fun e => String.eqb (fst e) k) d) as [[k' v] |].
Qed.

Lemma dict_entry_set (d : TokensDict) (k : string) (v : option Token)
    (k' : string) :
  dict_entry (dict_set d k v) k'
  = if String.eqb k k' then Some v else dict_entry d k'.
Proof.
  induction d as [| [k0 v0] d IH]; cbn [dict_set].
  - rewrite dict_entry_cons. reflexivity.
  - destruct (String.eqb_spec k0 k) as [-> | Hne];
      rewrite !dict_entry_cons.
    + now destruct (String.eqb k k').
    + rewrite IH. destruct (String.eqb_spec k0 k') as [-> | Hne'];
        [| reflexivity].
      destruct (String.eqb_spec k k'); [congruence | reflexivity].
Qed.

Lemma dict_has_In (d : TokensDict) (k : string) :
  dict_has d k = true <-> In k (dict_keys d).
Proof.
  unfold dict_has. induction d as [| [k0 v0] d IH]; cbn [dict_keys map fst].
  - split; [discriminate | intros []].
  - rewrite dict_entry_cons. destruct (String.eqb_spec k0 k) as [-> | Hne].
    + split; [now left | reflexivity].
    + rewrite IH. split; [now right | intros [Heq | Hin]; [contradiction | exact Hin]].
Qed.

Lemma dict_keys_set (d : TokensDict) (k : string) (v : option Token) :
  dict_keys (dict_set d k v)
  = if dict_has d k then dict_keys d else dict_keys d ++ [k].
Proof.
  unfold dict_has.
  induction d as [| [k0 v0] d IH]; cbn [dict_set]; [reflexivity |].
  rewrite dict_entry_cons.
  destruct (String.eqb k0 k); [reflexivity |].
  cbn [dict_keys map fst] in *. fold (dict_keys (dict_set d k v)).
  rewrite IH. now destruct (dict_entry d k).
Qed.

Lemma NoDup_keys_set (d : TokensDict) (k : string) (v : option Token) :
  NoDup (dict_keys d) -> NoDup (dict_keys (dict_set d k v)).
Proof.
  intros Hd. rewrite dict_keys_set.
  destruct (dict_has d k) eqn:Hhas; [exact Hd |].
  apply NoDup_app; [exact Hd | repeat constructor; intros [] |].
  intros x Hx [<- | []]. apply dict_has_In in Hx. congruence.
Qed.

Lemma NoDup_keys_spread (a b : TokensDict) :
  NoDup (dict_keys a) -> NoDup (dict_keys (spread a b)).
Proof.
  unfold spread. revert a.
  induction b as [| [k v] b IH]; intros a Ha; cbn; [exact Ha |].
  apply IH. now apply NoDup_keys_set.
Qed.

(** An object literal built from spreads has each key once. *)
Lemma NoDup_keys_spread_all (os : list TokensDict) :
  NoDup (dict_keys (spread_all os)).
Proof.
  unfold spread_all.
  assert (H : forall acc, NoDup (dict_keys acc) ->
                          NoDup (dict_keys (fold_left spread os acc))).
  { induction os as [| o os IH]; intros acc Hacc; cbn; [exact Hacc |].
    apply IH. now apply NoDup_keys_spread. }
  apply H. constructor.
Qed.

Lemma dict_entry_absent (d : TokensDict) (k : string) :
  ~ In k (dict_keys d) -> dict_entry d k = None.
Proof.
  intros Hout. destruct (dict_entry d k) eqn:He; [| reflexivity].
  exfalso. apply Hout. apply dict_has_In. unfold dict_has. now rewrite He.
Qed.

(** In a spread the right operand wins, key by key. *)
Lemma dict_entry_spread (a b : TokensDict) (k : string) :
  NoDup (dict_keys b) ->
  dict_entry (spread a b) k
  = match dict_entry b k with
    | Some v => Some v
    | None => dict_entry a k
    end.
Proof.
  unfold spread. revert a.
  induction b as [| [k0 v0] b IH]; intros a Hb; cbn [fold_left fst snd];
    [reflexivity |].
  inversion Hb as [| ? ? Hk0 Hb']; subst.
  rewrite IH by exact Hb'. rewrite dict_entry_cons, dict_entry_set.
  destruct (String.eqb_spec k0 k) as [-> | Hne]; [| reflexivity].
  now rewrite (dict_entry_absent b k Hk0).
Qed.

Lemma dict_entry_In (d : TokensDict) (k : string) (v : option Token) :
  NoDup (dict_keys d) -> In (k, v) d -> dict_entry d k = Some v.
Proof.
  induction d as [| [k0 v0] d IH]; intros Hd Hin; [destruct Hin |].
  inversion Hd as [| ? ? Hk0 Hd']; subst. rewrite dict_entry_cons.
  destruct Hin as [[= -> ->] | Hin].
  - now rewrite String.eqb_refl.
  - destruct (String.eqb_spec k0 k) as [-> | Hne]; [| now apply IH].
    exfalso. apply Hk0. change k with (fst (k, v)). now apply in_map.
Qed.

Lemma dict_set_same (d : TokensDict) (k : string) (v : option Token) :
  dict_entry d k = Some v -> dict_set d k v = d.
Proof.
  induction d as [| [k0 v0] d IH]; [discriminate |].
  rewrite dict_entry_cons. cbn [dict_set].
  destruct (String.eqb_spec k0 k) as [-> | Hne].
  - now intros [= ->].
  - intros He. now rewrite IH.
Qed.

(** Spreading into an object what it already holds changes nothing. *)
Lemma spread_absorbed (m u : TokensDict) :
  (forall k v, In (k, v) u -> dict_entry m k = Some v) ->
  spread m u = m.
Proof.
  unfold spread. induction u as [| [k v] u IH]; intros Hall; cbn;
    [reflexivity |].
  rewrite dict_set_same by (apply Hall; now left).
  apply IH. intros k' v' Hin. apply Hall. now right.
Qed.

Lemma dict_set_fresh (d : TokensDict) (k : string) (v : option Token) :
  ~ In k (dict_keys d) -> dict_set d k v = d ++ [(k, v)].
Proof.
  induction d as [| [k0 v0] d IH]; intros Hout; cbn; [reflexivity |].
  destruct (String.eqb_spec k0 k) as [-> | Hne].
  - exfalso. apply Hout. now left.
  - rewrite IH; [reflexivity |]. intros Hin. apply Hout. now right.
Qed.

(** Spreading new keys into an object appends them in order. *)
Lemma spread_fresh (a d : TokensDict) :
  NoDup (dict_keys (a ++ d)) -> spread a d = a ++ d.
Proof.
  unfold spread. revert a.
  induction d as [| [k v] d IH]; intros a Hnd; cbn;
    [now rewrite app_nil_r |].
  assert (Hout : ~ In k (dict_keys a)).
  { unfold dict_keys in *. rewrite map_app in Hnd. cbn in Hnd.
    apply NoDup_remove_2 in Hnd. intros Hin. apply Hnd.
    apply in_or_app. now left. }
  rewrite dict_set_fresh by exact Hout.
  rewrite IH; rewrite <- app_assoc; [reflexivity | exact Hnd].
Qed.

Lemma spread_from_empty (d : TokensDict) :
  NoDup (dict_keys d) -> spread [] d = d.
Proof. intros Hd. now rewrite spread_fresh. Qed.

Lemma dict_has_keys (a a' : TokensDict) (k : string) :
  dict_keys a = dict_keys a' -> dict_has a k = dict_has a' k.
Proof.
  intros Hkeys.
  destruct (dict_has a k) eqn:Ha, (dict_has a' k) eqn:Ha'; try reflexivity.
  - apply dict_has_In in Ha. rewrite Hkeys in Ha. apply dict_has_In in Ha.
    congruence.
  - apply dict_has_In in Ha'. rewrite <- Hkeys in Ha'. apply dict_has_In in Ha'.
    congruence.
Qed.

(** The keys of a spread depend on the keys of its operands only. *)
Lemma dict_keys_spread_congr (b b' : TokensDict) :
  dict_keys b = dict_keys b' ->
  forall a a', dict_keys a = dict_keys a' ->
  dict_keys (spread a b) = dict_keys (spread a' b').
Proof.
  unfold spread. revert b'.
  induction b as [| [k v] b IH]; intros [| [k' v'] b'] Hb a a' Ha;
    try discriminate; cbn; [exact Ha |].
  cbn in Hb. injection Hb as -> Hb.
  apply IH; [exact Hb |].
  rewrite !dict_keys_set, (dict_has_keys a a' k' Ha), Ha. reflexivity.
Qed.

(** Spreading keys that the object already has keeps its key order. *)
Lemma dict_keys_spread_within (m u : TokensDict) :
  (forall k, In k (dict_keys u) -> In k (dict_keys m)) ->
  dict_keys (spread m u) = dict_keys m.
Proof.
  unfold spread. revert m.
  induction u as [| [k v] u IH]; intros m Hall; cbn; [reflexivity |].
  assert (Hk : dict_keys (dict_set m k v) = dict_keys m).
  { rewrite dict_keys_set.
    assert (Hhas : dict_has m k = true)
      by (apply dict_has_In, Hall; now left).
    now rewrite Hhas. }
  rewrite IH; [exact Hk |].
  intros k' Hin. rewrite Hk. apply Hall. now right.
Qed.

(** Two objects with the same keys in the same order and the same value
    under each key are the same. *)
Lemma dict_ext (a b : TokensDict) :
  NoDup (dict_keys a) ->
  dict_keys a = dict_keys b ->
  (forall k, dict_entry a k = dict_entry b k) ->
  a = b.
Proof.
  revert b. induction a as [| [k v] a IH]; intros [| [k' v'] b] Hnd Hkeys Hall;
    try discriminate; [reflexivity |].
  cbn in Hkeys. injection Hkeys as <- Hkeys.
  inversion Hnd as [| ? ? Hk Hnd']; subst.
  assert (Hv : v = v').
  { specialize (Hall k). rewrite !dict_entry_cons, String.eqb_refl in Hall.
    congruence. }
  subst v'. f_equal. apply IH; [exact Hnd' | exact Hkeys |].
  intros k2. specialize (Hall k2). rewrite !dict_entry_cons in Hall.
  destruct (String.eqb_spec k k2) as [Heq | Hne]; [| exact Hall].
  subst k2. rewrite (dict_entry_absent a k Hk).
  symmetry. apply dict_entry_absent.
  unfold dict_keys. rewrite <- Hkeys. exact Hk.
Qed.

(** [{ ...{ ...d, ...u }, ...u }] is [{ ...d, ...u }]. *)
Lemma merged_absorbs (d u : TokensDict) :
  NoDup (dict_keys u) ->
  spread_all [spread_all [d; u]; u] = spread_all [d; u].
Proof.
  intros Hu. cbn [spread_all fold_left].
  set (m := spread (spread [] d) u).
  assert (Hm : NoDup (dict_keys m)).
  { apply NoDup_keys_spread, NoDup_keys_spread. constructor. }
  rewrite (spread_from_empty m Hm).
  apply spread_absorbed. intros k v Hin. unfold m.
  rewrite dict_entry_spread by exact Hu.
  now rewrite (dict_entry_In u k v Hu Hin).
Qed.

(** [{ ...d, ...u }] is [u] itself when [d] has the keys of [u] in the
    same order, and when [d] is empty. *)
Lemma merged_is_used (d u : TokensDict) :
  NoDup (dict_keys u) ->
  d = [] \/ dict_keys d = dict_keys u ->
  spread_all [d; u] = u.
Proof.
  intros Hu [-> | Hkeys]; cbn [spread_all fold_left].
  - cbn. now apply spread_from_empty.
  - assert (Hd : NoDup (dict_keys d)) by now rewrite Hkeys.
    rewrite (spread_from_empty d Hd).
    assert (Hk : dict_keys (spread d u) = dict_keys d).
    { apply dict_keys_spread_within. intros k Hin. now rewrite Hkeys. }
    apply dict_ext.
    + now rewrite Hk.
    + now rewrite Hk.
    + intros k. rewrite dict_entry_spread by exact Hu.
      destruct (dict_entry u k) eqn:He; [reflexivity |].
      apply dict_entry_absent. rewrite Hkeys. intros Hin.
      apply dict_has_In in Hin. unfold dict_has in Hin.
      now rewrite He in Hin.
Qed.

Lemma usedTokens_keys (staticTokens : TokensDict)
    (base quote base' quote' : option Token) :
  dict_keys (usedTokens staticTokens base quote)
  = dict_keys (usedTokens staticTokens base' quote').
Proof.
  unfold usedTokens. cbn [spread_all fold_left].
  apply dict_keys_spread_congr; [reflexivity |].
  apply dict_keys_spread_congr; reflexivity.
Qed.

(** The callback of [filter] may throw, and otherwise keeps the first
    element it accepts first. *)
Lemma Array_filter_first {A} (p : A -> Completion bool) (arr : list A)
    (x : A) (rest : list A) :
  Array_filter p arr = Normal (x :: rest) ->
  exists before after,
    arr = before ++ x :: after /\
    p x = Normal true /\
    forall y, In y before -> p y = Normal false.
Proof.
  revert x rest. induction arr as [| y arr IH]; intros x rest; cbn;
    [discriminate |].
  destruct (p y) as [[|] |] eqn:Hy; try discriminate;
    destruct (Array_filter p arr) as [kept |] eqn:Hf; try discriminate.
  - intros [= -> ->]. exists [], arr. repeat split; auto. intros ? [].
  - intros [= ->].
    destruct (IH _ _ eq_refl) as (before & after & -> & Hx & Hb).
    exists (y :: before), after. repeat split; auto.
    intros z [<- | Hz]; auto.
Qed.

(** ** The default dictionary and the token effect *)

Section TokenEffectProperties.

Variables staticTokens devnetTokens mainnetTokens : TokensDict.
Variables Networks_Devnet Networks_Mainnet Networks_Custom : string.
Variable JSON_stringify : TokensDict -> string.

Local Abbreviation defaults :=
  (defaultTokens staticTokens devnetTokens mainnetTokens
     Networks_Devnet Networks_Mainnet Networks_Custom).
Local Abbreviation resolve :=
  (resolve_tokens staticTokens devnetTokens mainnetTokens
     Networks_Devnet Networks_Mainnet Networks_Custom JSON_stringify).

(** Lookup in [{ ...a, ...b }] for tables with distinct keys. *)
Lemma dict_get_over (a b : TokensDict) (k : string) :
  NoDup (dict_keys b) ->
  dict_get (spread a b) k
  = if dict_has b k then dict_get b k else dict_get a k.
Proof.
  intros Hb. rewrite !dict_get_entry, dict_entry_spread by exact Hb.
  unfold dict_has. now destruct (dict_entry b k).
Qed.

(** X4: which table a token name is read from.  With the three tables
    being objects (distinct keys each): on devnet a name of [devnetTokens]
    is read from there and any other name from [staticTokens]; on mainnet
    the same with [mainnetTokens]; on the custom network and on every other
    network [devnetTokens] comes before [mainnetTokens], which comes before
    [staticTokens].  A name that a later table holds with [undefined] hides
    the token of an earlier table. *)
Theorem defaultTokens_table_precedence (network name : string) :
  NoDup (dict_keys staticTokens) ->
  NoDup (dict_keys devnetTokens) ->
  NoDup (dict_keys mainnetTokens) ->
  dict_get (defaults network) name
  = if String.eqb network Networks_Devnet then
      if dict_has devnetTokens name then dict_get devnetTokens name
      else dict_get staticTokens name
    else if String.eqb network Networks_Mainnet then
      if dict_has mainnetTokens name then dict_get mainnetTokens name
      else dict_get staticTokens name
    else
      if dict_has devnetTokens name then dict_get devnetTokens name
      else if dict_has mainnetTokens name then dict_get mainnetTokens name
      else dict_get staticTokens name.
Proof.
  intros Hs Hd Hm. unfold defaultTokens.
  destruct (String.eqb network Networks_Devnet);
    [| destruct (String.eqb network Networks_Mainnet);
       [| destruct (String.eqb network Networks_Custom)]];
    cbn [spread_all fold_left];
    rewrite (spread_from_empty staticTokens Hs);
    rewrite ?dict_get_over by assumption; reflexivity.
Qed.

(** The effect, once the filter of lines 196-198 is evaluated. *)
Lemma resolve_tokens_cases (network : string) (programVersion : ProgramVersion)
    (state : DaoState) (daoTokens : TokensDict) :
  resolve network programVersion (Some state) daoTokens
  = match Array_filter (is_dao_token (tokenMint state)) (defaults network) with
    | Throw e => (Throw e, daoTokens)
    | Normal [] =>
        (Throw (TypeError "Cannot read properties of undefined (reading '1')"),
         daoTokens)
    | Normal (entry :: _) =>
        let used :=
          usedTokens staticTokens (snd entry)
            (dict_get (defaults network) (quote_name network programVersion)) in
        let merged := spread_all [daoTokens; used] in
        if negb (String.eqb (JSON_stringify merged) (JSON_stringify used))
        then (Normal tt, merged)
        else (Normal tt, daoTokens)
    end.
Proof.
  unfold resolve_tokens, quote_name, usedTokens.
  destruct (Array_filter (is_dao_token (tokenMint state)) (defaults network))
    as [[| entry rest] | e]; try reflexivity.
  cbn [Array_get Z.ltb Z.compare Z.to_nat nth_error].
  now destruct (negb (String.eqb (label programVersion) "V0.3")
                && String.eqb network "devnet").
Qed.

(** X5: when the effect stores a new dictionary, its [baseToken] is the
    first token of the default dictionary, in dictionary order, whose public
    key is the [tokenMint] of the DAO, and its [quoteToken] is what the
    default dictionary holds under ['musdc'] (devnet, versions other than
    V0.3) or under ['usdc'] (otherwise), [undefined] included. *)
Theorem stored_tokens_after_update (network : string)
    (programVersion : ProgramVersion) (state : DaoState)
    (daoTokens stored : TokensDict) (out : Completion unit) :
  resolve network programVersion (Some state) daoTokens = (out, stored) ->
  stored <> daoTokens ->
  exists mint name token before after,
    out = Normal tt /\
    tokenMint state = Some mint /\
    defaults network = before ++ (name, Some token) :: after /\
    token_publicKey token = mint /\
    (forall k v, In (k, v) before ->
       exists other, v = Some other /\ token_publicKey other <> mint) /\
    dict_get stored "baseToken" = Some token /\
    dict_get stored "quoteToken"
      = dict_get (defaults network) (quote_name network programVersion).
Proof.
  rewrite resolve_tokens_cases.
  destruct (Array_filter (is_dao_token (tokenMint state)) (defaults network))
    as [[| [name v] rest] | e] eqn:Hfilter;
    try (intros [= <- <-] Hne; now contradiction Hne).
  cbn zeta.
  set (used := usedTokens staticTokens (snd (name, v)) _).
  destruct (negb (String.eqb (JSON_stringify (spread_all [daoTokens; used]))
                             (JSON_stringify used)));
    intros [= <- <-] Hne; [clear Hne | now contradiction Hne].
  destruct (Array_filter_first _ _ _ _ Hfilter)
    as (before & after & Hsplit & Hhit & Hmiss).
  unfold is_dao_token in Hhit. cbn [snd] in Hhit.
  destruct v as [token |]; [| discriminate].
  destruct (tokenMint state) as [mint |] eqn:Hmint; [| discriminate].
  injection Hhit as Hhit. apply PublicKey_toString_eqb in Hhit.
  exists mint, name, token, before, after.
  assert (Hused : NoDup (dict_keys used)) by apply NoDup_keys_spread_all.
  assert (Hbase : dict_entry used "baseToken" = Some (Some token)).
  { unfold used, usedTokens. cbn [spread_all fold_left snd].
    rewrite dict_entry_spread by (repeat constructor; intros []).
    rewrite dict_entry_cons. cbn [String.eqb Ascii.eqb Bool.eqb].
    rewrite dict_entry_spread by (repeat constructor; intros []).
    now rewrite dict_entry_cons, String.eqb_refl. }
  assert (Hquote : dict_entry used "quoteToken"
                   = Some (dict_get (defaults network)
                             (quote_name network programVersion))).
  { unfold used, usedTokens. cbn [spread_all fold_left snd].
    rewrite dict_entry_spread by (repeat constructor; intros []).
    now rewrite dict_entry_cons, String.eqb_refl. }
  repeat split; auto.
  - intros k v Hin. specialize (Hmiss (k, v) Hin).
    unfold is_dao_token in Hmiss. cbn [snd] in Hmiss.
    destruct v as [other |]; [| discriminate].
    injection Hmiss as Hmiss. apply PublicKey_toString_neqb in Hmiss.
    now exists other.
  - cbn [spread_all fold_left].
    now rewrite dict_get_entry, dict_entry_spread, Hbase by exact Hused.
  - cbn [spread_all fold_left].
    now rewrite dict_get_entry, dict_entry_spread, Hquote by exact Hused.
Qed.

(** X6: running the effect again with the same DAO, network and version on
    the dictionary it left completes the same way and leaves that
    dictionary: the stored tokens settle after one run. *)
Theorem token_effect_settles (network : string)
    (programVersion : ProgramVersion) (daoState : option DaoState)
    (daoTokens : TokensDict) :
  let first := resolve network programVersion daoState daoTokens in
  resolve network programVersion daoState (snd first) = first.
Proof.
  destruct daoState as [state |]; [| reflexivity].
  cbn zeta. rewrite !resolve_tokens_cases.
  destruct (Array_filter (is_dao_token (tokenMint state)) (defaults network))
    as [[| entry rest] | e]; try reflexivity.
  cbn zeta.
  set (used := usedTokens staticTokens (snd entry) _).
  assert (Hused : NoDup (dict_keys used)) by apply NoDup_keys_spread_all.
  destruct (negb (String.eqb (JSON_stringify (spread_all [daoTokens; used]))
                             (JSON_stringify used))) eqn:Hdiffer;
    cbn [snd].
  - rewrite (merged_absorbs daoTokens used Hused). now rewrite Hdiffer.
  - now rewrite Hdiffer.
Qed.

(** X7: the effect updates the store only when the merged dictionary
    differs from [usedTokens], not when it differs from the stored one.  So
    an empty stored dictionary, and a stored dictionary whose keys are the
    static token names followed by [baseToken] and [quoteToken] in the order
    of [usedTokens], is never replaced, whatever tokens it holds and
    whatever the DAO. *)
Theorem aligned_store_is_never_updated (network : string)
    (programVersion : ProgramVersion) (daoState : option DaoState)
    (daoTokens : TokensDict) :
  daoTokens = [] \/
  dict_keys daoTokens = dict_keys (usedTokens staticTokens None None) ->
  snd (resolve network programVersion daoState daoTokens) = daoTokens.
Proof.
  intros Haligned.
  destruct daoState as [state |]; [| reflexivity].
  rewrite resolve_tokens_cases.
  destruct (Array_filter (is_dao_token (tokenMint state)) (defaults network))
    as [[| entry rest] | e]; try reflexivity.
  cbn zeta.
  set (used := usedTokens staticTokens (snd entry) _).
  assert (Hused : NoDup (dict_keys used)) by apply NoDup_keys_spread_all.
  rewrite (merged_is_used daoTokens used Hused).
  - now rewrite String.eqb_refl.
  - destruct Haligned as [-> | Hkeys]; [now left | right].
    rewrite Hkeys. apply usedTokens_keys.
Qed.

End TokenEffectProperties.

(** ** Every run of the hook *)

Section HookInvariants.

Context {ProposalInstruction SwapType : Type}.

Local Abbreviation World := (World ProposalInstruction SwapType).
Local Abbreviation Event := (Event ProposalInstruction SwapType).

(** X8: past its guard, [initializeProposal(url, instruction)] asks for a
    fresh keypair; when that succeeds it has the account-creation
    instruction built for that keypair with size 1500; when that succeeds it
    starts the builder of the initialization instruction with
    [descriptionUrl: url], the instruction as given and the three zeros.  A
    rejected request ends the run with its error.  When the builder was
    started, the run ends with the [ReferenceError] of [failAmm]: the
    accounts are never passed and no other request is made. *)
Theorem initializeProposal_stops_at_the_accounts (w : World) t0 program
    daoKey treasury daoTokens wallet walletKey base quote url instruction
    out tr :
  opt_wallet_publicKey wallet = Some walletKey ->
  opt_wallet_signAll wallet = true ->
  opt_dict_get daoTokens "baseToken" = Some base ->
  opt_dict_get daoTokens "quoteToken" = Some quote ->
  initializeProposal (Some program) daoKey (Some treasury) daoTokens wallet
    url instruction w t0 = (out, tr) ->
  exists generated rest1,
    tr = t0 ++ Called Keypair_generate generated :: rest1 /\
    match generated with
    | Rejected e => rest1 = [] /\ out = Throw (Raised e)
    | Fulfilled proposalKeypair =>
        exists created rest2,
          rest1 = Called (proposal_createInstruction program proposalKeypair
                            1500) created :: rest2 /\
          match created with
          | Rejected e => rest2 = [] /\ out = Throw (Raised e)
          | Fulfilled _ =>
              exists begun,
                rest2 = [Called (methods_initializeProposal program
                                   {| descriptionUrl := url;
                                      instruction := instruction;
                                      passLpTokensToLock := 0;
                                      failLpTokensToLock := 0;
                                      nonce := 0 |}) begun] /\
                out = match begun with
                      | Rejected e => Throw (Raised e)
                      | Fulfilled _ =>
                          Throw (ReferenceError "failAmm is not defined")
                      end
          end
    end.
Proof.
  intros Hpk Hsign Hbase Hquote Hrun.
  destruct (initializeProposal_runs _ _ _ _ _ _ _ _ _ _ _ _ _ _
              Hpk Hsign Hbase Hquote Hrun)
    as (generated & rest1 & Htr & Hrest1).
  exists generated, rest1. split; [exact Htr |].
  destruct generated as [kp | e]; [| exact Hrest1].
  destruct Hrest1 as (created & rest2 & Hrest1 & Hrest2).
  exists created, rest2. split; [exact Hrest1 |].
  destruct created as [ix1 | e]; [| exact Hrest2].
  destruct Hrest2 as (begun & Hrest2 & Hout).
  exists begun. split; [exact Hrest2 |]. now destruct begun.
Qed.

(** X9: in every run of [initializeProposal], whatever the arguments and
    the replies, the only requests are the key generation, the
    account-creation builder and the start of the initialization builder:
    no blockhash is fetched, nothing is signed by the keypair or the wallet,
    and no transaction is serialized, sent or awaited.  The call completes
    normally exactly when its guard turned it away. *)
Theorem hook_never_reaches_wallet_or_network (w : World) t0 program
    daoKey treasuryKey daoTokens wallet url instruction out evs :
  initializeProposal program daoKey treasuryKey daoTokens wallet
    url instruction w t0 = (out, t0 ++ evs) ->
  (forall ev, In ev evs -> is_opening ev = true) /\
  filter is_getLatestBlockhash evs = [] /\
  filter is_signing evs = [] /\
  filter is_submission evs = [] /\
  (out = Normal tt <-> hook_unresolved program treasuryKey daoTokens wallet).
Proof.
  intros Hrun.
  destruct (initializeProposal_events _ _ _ _ _ _ _ _ _ _ _ Hrun)
    as (evs' & Htr & Hopening & Hnormal).
  apply app_inv_head in Htr. subst evs'.
  split; [now apply forallb_forall |].
  repeat split; try apply Hnormal;
    apply (filter_nothing is_opening); try exact Hopening;
    intros ev Hev; apply opening_is_no_later_request, Hev.
Qed.

End HookInvariants.

(** ** The active DAO *)

Lemma selectedDao_total (d0 : DaoInfo) (others : list DaoInfo)
    (daos : list DaoAccount) :
  selectedDao (d0 :: others) (Some daos)
  = Normal
      (match find (fun dao =>
                     String.eqb (PublicKey_toString (dao_publicKey dao))
                                (PublicKey_toString (info_publicKey d0)))
                  daos with
       | Some dao => Some dao
       | None => hd_error daos
       end).
Proof.
  unfold selectedDao.
  change (Array_find (matches_first_DAO (d0 :: others)) daos)
    with (Array_find
            (fun x => Normal
               (String.eqb (PublicKey_toString (dao_publicKey x))
                           (PublicKey_toString (info_publicKey d0)))) daos).
  rewrite Array_find_total.
  destruct (find _ daos); [reflexivity |]. now destruct daos.
Qed.

(** X13: with a first entry in [DAOS], resolving the active DAO never
    throws; the active DAO is always one of the fetched DAOs; and there is
    an active DAO exactly when a non-empty list was fetched. *)
Theorem active_dao_is_a_fetched_dao (d0 : DaoInfo) (others : list DaoInfo)
    (daos : option (list DaoAccount)) :
  exists active,
    selectedDao (d0 :: others) daos = Normal active /\
    (forall m, active = Some m -> exists l, daos = Some l /\ In m l) /\
    (active = None <-> daos = None \/ daos = Some []).
Proof.
  destruct daos as [l |].
  - eexists. split; [apply selectedDao_total |].
    destruct (find _ l) as [m |] eqn:Hfind.
    + split.
      * intros m' [= <-]. exists l. split; [reflexivity |].
        now apply find_some in Hfind.
      * split; [discriminate |].
        intros [H | [= ->]]; discriminate.
    + destruct l as [| x l]; cbn.
      * split; [discriminate | split; auto].
      * split.
        -- intros m [= <-]. exists (x :: l). split; [reflexivity | now left].
        -- split; [discriminate | intros [H | H]; discriminate].
  - exists None. split; [reflexivity |]. split; [discriminate |].
    split; auto.
Qed.

(** ** [createAmm], request by request *)

Section CreateAmmProperties.

Context {ProposalInstruction SwapType : Type}.

Local Abbreviation World := (World ProposalInstruction SwapType).
Local Abbreviation Event := (Event ProposalInstruction SwapType).

Lemma createAmm_runs_checked (w : World) t0 program state daoTokens base quote
    wallet pof uri proposalNumber symbol a out tr :
  dict_get daoTokens "baseToken" = Some base ->
  dict_get daoTokens "quoteToken" = Some quote ->
  createAmm (Some program) (Some state) daoTokens (Some wallet)
    pof uri proposalNumber symbol a w t0 = (out, tr) ->
  if PublicKey_equals (token_publicKey base) (token_publicKey quote)
  then tr = t0 /\
       out = Throw (NewError "Base and quote mints must be different")
  else
    exists fetched rest1,
      tr = t0 ++ Called (mint_fetch program (token_publicKey base)) fetched
                 :: rest1 /\
      match fetched with
      | Rejected e => rest1 = [] /\ out = Throw (Raised e)
      | Fulfilled mint =>
          if strict_neq_zero (supply mint)
          then rest1 = [] /\
               out = Throw (NewError "Base mint must have a supply of 0")
          else
            exists derived rest2,
              rest1 = Called (derive_proposal program proposalNumber) derived
                      :: rest2 /\
              match derived with
              | Rejected e =>
                  rest2 = [ConsoleError "Error creating AMM:" (Raised e)] /\
                  out = Throw (Raised e)
              | Fulfilled found =>
                  exists created,
                    rest2 =
                      Called (ammClient_createAmm
                                (amm_args state base quote pof uri
                                          proposalNumber a found)) created
                      :: logged "Error creating AMM:" created /\
                    out = completion_of created
              end
      end.
Proof.
  intros Hbase Hquote Hrun. unfold createAmm in Hrun.
  rewrite Hbase, Hquote in Hrun.
  destruct (PublicKey_equals (token_publicKey base) (token_publicKey quote))
    eqn:Heq.
  { injection Hrun as <- <-. auto. }
  unfold bind, try_catch, call, console_error, throw in Hrun.
  step_in Hrun w.
  2:{ injection Hrun as <- <-. exists (Rejected reply), []. auto. }
  exists (Fulfilled reply).
  destruct (strict_neq_zero (supply reply)) eqn:Hsupply.
  { injection Hrun as <- <-. exists []. auto. }
  cbn in Hrun. step_in Hrun w.
  2:{ injection Hrun as <- <-. flatten_trace.
      eexists. split; [reflexivity |].
      exists (Rejected reply0). eexists. split; [reflexivity |]. auto. }
  step_in Hrun w; injection Hrun as <- <-; flatten_trace.
  - destruct reply1.
    eexists. split; [reflexivity |].
    exists (Fulfilled reply0). eexists. split; [reflexivity |].
    exists (Fulfilled tt). cbn. auto.
  - eexists. split; [reflexivity |].
    exists (Fulfilled reply0). eexists. split; [reflexivity |].
    exists (Rejected reply1). cbn. auto.
Qed.

(** X14: past its guard, [createAmm(pof, uri, proposalNumber, symbol, a)]
    makes no request when base and quote have equal keys.  Otherwise it
    fetches the mint account of the base token; when the supply read there
    is the number 0 it derives the program address of the seeds ['proposal',
    decimal text of [proposalNumber]] under the id of the Autocrat program;
    when that succeeds it calls [ammClient.createAmm] with the derived
    address, the base and quote keys (each passed twice), the two TWAP
    parameters of the DAO state and [pof], [uri], [proposalNumber], [a] as
    given, and makes no other request.  [symbol] is not used. *)
Theorem createAmm_checks_derives_delegates (w : World) t0 program state
    daoTokens base quote wallet pof uri proposalNumber symbol a out tr :
  dict_get daoTokens "baseToken" = Some base ->
  dict_get daoTokens "quoteToken" = Some quote ->
  createAmm (Some program) (Some state) daoTokens (Some wallet)
    pof uri proposalNumber symbol a w t0 = (out, tr) ->
  if PublicKey_equals (token_publicKey base) (token_publicKey quote)
  then tr = t0 /\
       out = Throw (NewError "Base and quote mints must be different")
  else
    exists fetched rest1,
      tr = t0 ++ Called (mint_fetch program (token_publicKey base)) fetched
                 :: rest1 /\
      match fetched with
      | Rejected e => rest1 = [] /\ out = Throw (Raised e)
      | Fulfilled mint =>
          if strict_neq_zero (supply mint)
          then rest1 = [] /\
               out = Throw (NewError "Base mint must have a supply of 0")
          else
            exists derived rest2,
              rest1 =
                Called (PublicKey_findProgramAddress
                          [Buffer_from "proposal";
                           Buffer_from (Number_toString proposalNumber)]
                          (programId program)) derived
                :: rest2 /\
              match derived with
              | Rejected e =>
                  rest2 = [ConsoleError "Error creating AMM:" (Raised e)] /\
                  out = Throw (Raised e)
              | Fulfilled found =>
                  exists created,
                    rest2 =
                      Called (ammClient_createAmm
                                {| ca_proposal := fst found;
                                   ca_baseMint := token_publicKey base;
                                   ca_quoteMint := token_publicKey quote;
                                   ca_twapInitialObservation :=
                                     twapInitialObservation state;
                                   ca_pof := pof;
                                   ca_uri := uri;
                                   ca_proposalNumber := proposalNumber;
                                   ca_base := token_publicKey base;
                                   ca_quote := token_publicKey quote;
                                   ca_a := a;
                                   ca_twapMaxObservationChangePerUpdate :=
                                     twapMaxObservationChangePerUpdate state |})
                             created
                      :: logged "Error creating AMM:" created /\
                    out = completion_of created
              end
      end.
Proof.
  intros Hbase Hquote Hrun.
  exact (createAmm_runs_checked _ _ _ _ _ _ _ _ _ _ _ _ _ _ _
           Hbase Hquote Hrun).
Qed.

(** X15: in no run of [createAmm], whatever the replies, is a proposal
    address derived or the AMM client asked to create a market unless the
    stored base and quote tokens have different keys and the run began by
    fetching the base token's mint, which answered with a supply that is
    the number 0 (a supply read as an object, such as a big number, never
    passes). *)
Theorem amm_is_created_only_after_both_checks (w : World) t0 program state
    daoTokens wallet pof uri proposalNumber symbol a out evs :
  createAmm program state daoTokens wallet pof uri proposalNumber symbol a
    w t0 = (out, t0 ++ evs) ->
  forall ev,
    In ev evs ->
    in_createAmm_try ev = true ->
    exists p base quote mint rest,
      program = Some p /\
      dict_get daoTokens "baseToken" = Some base /\
      dict_get daoTokens "quoteToken" = Some quote /\
      PublicKey_equals (token_publicKey base) (token_publicKey quote) = false /\
      evs = Called (mint_fetch p (token_publicKey base)) (Fulfilled mint)
            :: rest /\
      supply mint = JsNumber 0.
Proof.
  intros Hrun ev Hin Htry.
  destruct (provider_resolved_or_not program state daoTokens wallet)
    as [Hno | (p & st & base & quote & wl & -> & -> & Hbase & Hquote & ->)].
  - rewrite createAmm_unresolved in Hrun by assumption.
    injection Hrun as _ Hrun. rewrite <- (app_nil_r t0) in Hrun at 1.
    apply app_inv_head in Hrun. subst evs. destruct Hin.
  - pose proof (createAmm_runs_checked _ _ _ _ _ _ _ _ _ _ _ _ _ _ _
                  Hbase Hquote Hrun) as Hshape.
    destruct (PublicKey_equals (token_publicKey base) (token_publicKey quote))
      eqn:Heq.
    + destruct Hshape as [Htr _]. rewrite <- (app_nil_r t0) in Htr at 2.
      apply app_inv_head in Htr. subst evs. destruct Hin.
    + destruct Hshape as (fetched & rest1 & Htr & Hrest).
      apply app_inv_head in Htr. subst evs.
      destruct fetched as [mint | e].
      * destruct (strict_neq_zero (supply mint)) eqn:Hsupply.
        -- destruct Hrest as [-> _]. destruct Hin as [<- | []].
           discriminate Htry.
        -- exists p, base, quote, mint, rest1. repeat split; auto.
           destruct (supply mint) as [n | repr]; [| discriminate Hsupply].
           cbn in Hsupply. apply negb_false_iff, Z.eqb_eq in Hsupply.
           now subst n.
      * destruct Hrest as [-> _]. destruct Hin as [<- | []].
        discriminate Htry.
Qed.

End CreateAmmProperties.

(** ** Proposal numbers *)

Lemma Number_toString_inj (n m : Z) :
  Number_toString n = Number_toString m -> n = m.
Proof.
  unfold Number_toString. intros Htext.
  assert (Hnonnil : forall z, Z.to_int z <> Decimal.Pos Decimal.Nil /\
                              Z.to_int z <> Decimal.Neg Decimal.Nil).
  { intros [| q | q]; cbn; split; try discriminate;
      intros [= H]; now apply Unsigned.to_uint_nonnil in H. }
  apply (f_equal NilZero.int_of_string) in Htext.
  rewrite !NilZero.isi in Htext by apply Hnonnil.
  injection Htext as Htext.
  apply (f_equal Z.of_int) in Htext. now rewrite !DecimalZ.of_to in Htext.
Qed.

(** [Number] of [Scenarios] reads back what [String] writes. *)
Lemma Number_reads_String (i : Z) :
  Scenarios.Number (Number_toString i) = Some i.
Proof.
  unfold Scenarios.Number, Number_toString.
  rewrite NilZero.isi.
  - cbn. now rewrite DecimalZ.of_to.
  - destruct i; cbn; try discriminate.
    intros [= H]. now apply Unsigned.to_uint_nonnil in H.
  - destruct i; cbn; try discriminate.
    intros [= H]. now apply Unsigned.to_uint_nonnil in H.
Qed.

(** X16: proposals with different numbers never share the seeds of their
    address in [createAmm], nor their default title in the proposal list:
    the decimal text of the number tells them apart. *)
Theorem numbers_tell_proposals_apart {ProposalInstruction SwapType : Type}
    (program : Program) (p q : FetchedProposal) :
  number (fetched_account p) <> number (fetched_account q) ->
  derive_proposal (ProposalInstruction := ProposalInstruction)
    (SwapType := SwapType) program (number (fetched_account p))
  <> derive_proposal program (number (fetched_account q)) /\
  (fetched_title p = None -> fetched_title q = None ->
   title (with_defaults p) <> title (with_defaults q)).
Proof.
  intros Hne. split.
  - intros Hsame. apply (f_equal derivation_seeds) in Hsame. cbn in Hsame.
    injection Hsame as Hsame. now apply Number_toString_inj in Hsame.
  - intros Hp Hq Hsame. unfold with_defaults in Hsame. cbn in Hsame.
    rewrite Hp, Hq in Hsame. injection Hsame as Hsame.
    now apply Number_toString_inj in Hsame.
Qed.

(** ** The proposal list and the order of the fetched records *)

Lemma same_number_same_record (l : list FetchedProposal)
    (x y : FetchedProposal) :
  NoDup (map (fun p => number (fetched_account p)) l) ->
  In x l -> In y l ->
  number (fetched_account x) = number (fetched_account y) -> x = y.
Proof.
  induction l as [| z l IH]; intros Hnd Hx Hy Hnum; [destruct Hx |].
  cbn in Hnd. inversion Hnd as [| ? ? Hz Hnd']; subst.
  destruct Hx as [-> | Hx], Hy as [-> | Hy]; auto.
  - exfalso. apply Hz. rewrite Hnum.
    now apply (in_map (fun p => number (fetched_account p))).
  - exfalso. apply Hz. rewrite <- Hnum.
    now apply (in_map (fun p => number (fetched_account p))).
Qed.

(** Two orderings of the same records by non-increasing number agree when
    no two records share a number. *)
Lemma sorted_by_number_unique (s s' : list FetchedProposal) :
  StronglySorted number_ge s ->
  StronglySorted number_ge s' ->
  Permutation s s' ->
  NoDup (map (fun p => number (fetched_account p)) s) ->
  s = s'.
Proof.
  intros Hs. revert s'.
  induction Hs as [| x s Hs IH Hx]; intros s' Hs' Hperm Hnd.
  - now apply Permutation_nil in Hperm.
  - destruct Hs' as [| y s' Hs' Hy].
    + symmetry in Hperm. now apply Permutation_nil in Hperm.
    + assert (Hxy : x = y).
      { apply (same_number_same_record (x :: s)); auto.
        - now left.
        - eapply Permutation_in; [symmetry; exact Hperm | now left].
        - assert (Hge : number (fetched_account y)
                        >= number (fetched_account x)).
          { assert (Hin : In x (y :: s'))
              by (eapply Permutation_in; [exact Hperm | now left]).
            destruct Hin as [-> | Hin]; [lia |].
            rewrite Forall_forall in Hy. exact (Hy x Hin). }
          assert (Hle : number (fetched_account x)
                        >= number (fetched_account y)).
          { assert (Hin : In y (x :: s))
              by (eapply Permutation_in; [symmetry; exact Hperm | now left]).
            destruct Hin as [-> | Hin]; [lia |].
            rewrite Forall_forall in Hx. exact (Hx y Hin). }
          lia. }
      subst y. f_equal. apply IH.
      * exact Hs'.
      * eapply Permutation_cons_inv; exact Hperm.
      * cbn in Hnd. now inversion Hnd.
Qed.

(** X17: when no two fetched proposals share a number, the exposed list
    does not depend on the order in which the records were fetched. *)
Theorem proposals_do_not_depend_on_fetch_order
    (fetched fetched' : list FetchedProposal) :
  Permutation fetched fetched' ->
  NoDup (map (fun p => number (fetched_account p)) fetched) ->
  proposals (Some fetched) = proposals (Some fetched').
Proof.
  intros Hperm Hnd. unfold proposals. f_equal.
  destruct (Array_sort_spec fetched [] (SSorted_nil _)) as [Hs Hp].
  destruct (Array_sort_spec fetched' [] (SSorted_nil _)) as [Hs' Hp'].
  cbn in Hs, Hp, Hs', Hp'.
  apply sorted_by_number_unique; auto.
  - unfold Array_sort. now rewrite <- Hp, <- Hp'.
  - eapply Permutation_NoDup; [| exact Hnd].
    apply Permutation_map. exact Hp.
Qed.

(** ** The further properties on concrete values and runs *)

Lemma demo_stored_version_is_read_back :
  ((forall i, Scenarios.Number (Number_toString i) = Some i) /\
   In Scenarios.V0_2 Demo.versions) /\
  deserialize_version Demo.versions Scenarios.Number
    (serialize_version Demo.versions (Some Scenarios.V0_2))
  = Some Scenarios.V0_2.
Proof.
  assert (Hin : In Scenarios.V0_2 Demo.versions)
    by (right; left; reflexivity).
  split; [split; [exact Number_reads_String | exact Hin] |].
  exact (stored_version_round_trip Demo.versions Scenarios.Number
           Number_reads_String Scenarios.V0_2 Hin).
Defined.

Lemma demo_retired_version_is_lost :
  ((forall i, Scenarios.Number (Number_toString i) = Some i) /\
   ~ In Scenarios.retired Demo.versions) /\
  serialize_version Demo.versions (Some Scenarios.retired) = "-1" /\
  deserialize_version Demo.versions Scenarios.Number
    (serialize_version Demo.versions (Some Scenarios.retired)) = None.
Proof.
  assert (Hout : ~ In Scenarios.retired Demo.versions)
    by (intros [H | [H | []]]; discriminate H).
  split; [split; [exact Number_reads_String | exact Hout] |].
  apply (unlisted_version_is_stored_as_minus_one Demo.versions
           Scenarios.Number Number_reads_String (Some Scenarios.retired)).
  intros v [= <-]. exact Hout.
Defined.

Lemma demo_version_beyond_the_array_is_read_back :
  (forall i, Scenarios.Number (Number_toString i) = Some i) /\
  deserialize_version Demo.versions Scenarios.Number
    (serialize_version Demo.versions (setProgramVersion Demo.versions 5))
  = hd_error Demo.versions.
Proof.
  split; [exact Number_reads_String |].
  rewrite (setProgramVersion_survives_storage Demo.versions Scenarios.Number
             Number_reads_String 5).
  reflexivity.
Defined.

Lemma demo_devnet_token_names :
  let defaults :=
    defaultTokens Scenarios.staticTokens Scenarios.devnetTokens
      Scenarios.mainnetTokens "devnet" "mainnet-beta" "custom" "devnet" in
  (NoDup (dict_keys Scenarios.staticTokens) /\
   NoDup (dict_keys Scenarios.devnetTokens) /\
   NoDup (dict_keys Scenarios.mainnetTokens)) /\
  dict_get defaults "musdc" = Some Scenarios.MUSDC /\
  dict_get defaults "usdc" = Some Demo.USDC.
Proof.
  intros defaults.
  assert (Hs : NoDup (dict_keys Scenarios.staticTokens))
    by (repeat constructor; cbn; intuition discriminate).
  assert (Hd : NoDup (dict_keys Scenarios.devnetTokens))
    by (repeat constructor; cbn; intuition discriminate).
  assert (Hm : NoDup (dict_keys Scenarios.mainnetTokens))
    by (repeat constructor; cbn; intuition discriminate).
  split; [repeat split; assumption |].
  unfold defaults.
  rewrite !(defaultTokens_table_precedence Scenarios.staticTokens
              Scenarios.devnetTokens Scenarios.mainnetTokens
              "devnet" "mainnet-beta" "custom" "devnet") by assumption.
  split; reflexivity.
Defined.

Lemma demo_version_switch_updates_the_quote_token :
  let run :=
    resolve_tokens Scenarios.staticTokens Scenarios.devnetTokens
      Scenarios.mainnetTokens "devnet" "mainnet-beta" "custom"
      Scenarios.stringify "devnet" Scenarios.V0_2 (Some Demo.state)
      Demo.tokens in
  snd run <> Demo.tokens /\
  fst run = Normal tt /\
  (exists token,
     dict_get (snd run) "baseToken" = Some token /\
     Some (token_publicKey token) = tokenMint Demo.state) /\
  dict_get (snd run) "quoteToken" = Some Scenarios.MUSDC.
Proof.
  intros run.
  assert (Hne : snd run <> Demo.tokens) by (intros H; discriminate H).
  split; [exact Hne |].
  destruct (stored_tokens_after_update Scenarios.staticTokens
              Scenarios.devnetTokens Scenarios.mainnetTokens
              "devnet" "mainnet-beta" "custom" Scenarios.stringify
              "devnet" Scenarios.V0_2 Demo.state Demo.tokens
              (snd run) (fst run) eq_refl Hne)
    as (mint & name & token & before & after
        & Hout & Hmint & _ & Hkey & _ & Hbase & Hquote).
  split; [exact Hout |]. split.
  - exists token. split; [exact Hbase |]. now rewrite Hkey, Hmint.
  - rewrite Hquote. reflexivity.
Defined.

Lemma demo_swapped_tokens_are_kept :
  dict_keys Scenarios.swapped_tokens
  = dict_keys (usedTokens Scenarios.staticTokens None None) /\
  snd (resolve_tokens Scenarios.staticTokens Scenarios.devnetTokens
         Scenarios.mainnetTokens "devnet" "mainnet-beta" "custom"
         Scenarios.stringify "devnet" Scenarios.V0_2 (Some Demo.state)
         Scenarios.swapped_tokens)
  = Scenarios.swapped_tokens.
Proof.
  split; [reflexivity |].
  apply (aligned_store_is_never_updated Scenarios.staticTokens
           Scenarios.devnetTokens Scenarios.mainnetTokens
           "devnet" "mainnet-beta" "custom" Scenarios.stringify
           "devnet" Scenarios.V0_2 (Some Demo.state) Scenarios.swapped_tokens).
  right. reflexivity.
Defined.

Lemma demo_hook_stops_at_the_accounts :
  let run :=
    initializeProposal (Some Demo.program) (Some (Demo.key "Dao"))
      (Some (Demo.key "Treasury")) (Some Demo.tokens) (Some Demo.wallet)
      "https://proposal" "memo" Demo.no_account [] in
  (opt_wallet_publicKey (Some Demo.wallet) = Some (Demo.key "Wallet") /\
   opt_wallet_signAll (Some Demo.wallet) = true /\
   opt_dict_get (Some Demo.tokens) "baseToken" = Some Demo.META /\
   opt_dict_get (Some Demo.tokens) "quoteToken" = Some Demo.USDC) /\
  exists generated rest1,
    snd run = [] ++ Called Keypair_generate generated :: rest1 /\
    match generated with
    | Rejected e => rest1 = [] /\ fst run = Throw (Raised e)
    | Fulfilled proposalKeypair =>
        exists created rest2,
          rest1 = Called (proposal_createInstruction Demo.program
                            proposalKeypair 1500) created :: rest2 /\
          match created with
          | Rejected e => rest2 = [] /\ fst run = Throw (Raised e)
          | Fulfilled _ =>
              exists begun,
                rest2 = [Called (methods_initializeProposal Demo.program
                                   {| descriptionUrl := "https://proposal";
                                      instruction := "memo";
                                      passLpTokensToLock := 0;
                                      failLpTokensToLock := 0;
                                      nonce := 0 |}) begun] /\
                fst run = match begun with
                          | Rejected e => Throw (Raised e)
                          | Fulfilled _ =>
                              Throw (ReferenceError "failAmm is not defined")
                          end
          end
    end.
Proof.
  intros run. split; [repeat split |].
  exact (initializeProposal_stops_at_the_accounts Demo.no_account []
           Demo.program (Some (Demo.key "Dao")) (Demo.key "Treasury")
           (Some Demo.tokens) (Some Demo.wallet) (Demo.key "Wallet")
           Demo.META Demo.USDC "https://proposal" "memo" (fst run) (snd run)
           eq_refl eq_refl eq_refl eq_refl eq_refl).
Defined.

Lemma demo_hook_asks_for_no_signature :
  let run :=
    initializeProposal (Some Demo.program) (Some (Demo.key "Dao"))
      (Some (Demo.key "Treasury")) (Some Demo.tokens) (Some Demo.wallet)
      "https://proposal" "memo" Demo.friendly [] in
  run = (fst run, [] ++ snd run) /\
  List.length (snd run) = 3%nat /\
  filter is_getLatestBlockhash (snd run) = [] /\
  filter is_signing (snd run) = [] /\
  filter is_submission (snd run) = [] /\
  fst run <> Normal tt.
Proof.
  intros run. split; [reflexivity |]. split; [reflexivity |].
  destruct (hook_never_reaches_wallet_or_network Demo.friendly []
              (Some Demo.program) (Some (Demo.key "Dao"))
              (Some (Demo.key "Treasury")) (Some Demo.tokens)
              (Some Demo.wallet) "https://proposal" "memo"
              (fst run) (snd run) eq_refl)
    as (_ & Hblockhash & Hsigning & Hsubmission & Hnormal).
  repeat split; try assumption.
  intros Hout. apply Hnormal in Hout.
  destruct Hout as [H | [H | [H | [H | [H | H]]]]]; discriminate H.
Defined.

Lemma demo_createAmm_run :
  let run :=
    createAmm (Some Demo.program) (Some Demo.state) Demo.tokens
      (Some Demo.anchor_wallet) "pof" "uri" 7 "SYM" 3 Demo.amm_down [] in
  (dict_get Demo.tokens "baseToken" = Some Demo.META /\
   dict_get Demo.tokens "quoteToken" = Some Demo.USDC) /\
  exists fetched rest1,
    snd run = [] ++ Called (mint_fetch Demo.program (Demo.key "METAmint"))
                           fetched :: rest1 /\
    match fetched with
    | Rejected e => rest1 = [] /\ fst run = Throw (Raised e)
    | Fulfilled mint =>
        if strict_neq_zero (supply mint)
        then rest1 = [] /\
             fst run = Throw (NewError "Base mint must have a supply of 0")
        else
          exists derived rest2,
            rest1 =
              Called (PublicKey_findProgramAddress ["proposal"; "7"]
                        (Demo.key "Autocrat")) derived
              :: rest2 /\
            match derived with
            | Rejected e =>
                rest2 = [ConsoleError "Error creating AMM:" (Raised e)] /\
                fst run = Throw (Raised e)
            | Fulfilled found =>
                exists created,
                  rest2 =
                    Called (ammClient_createAmm
                              {| ca_proposal := fst found;
                                 ca_baseMint := Demo.key "METAmint";
                                 ca_quoteMint := Demo.key "USDCmint";
                                 ca_twapInitialObservation := 1000;
                                 ca_pof := "pof";
                                 ca_uri := "uri";
                                 ca_proposalNumber := 7;
                                 ca_base := Demo.key "METAmint";
                                 ca_quote := Demo.key "USDCmint";
                                 ca_a := 3;
                                 ca_twapMaxObservationChangePerUpdate := 50 |})
                           created
                    :: logged "Error creating AMM:" created /\
                  fst run = completion_of created
            end
    end.
Proof.
  intros run. split; [split; reflexivity |].
  exact (createAmm_checks_derives_delegates Demo.amm_down []
           Demo.program Demo.state Demo.tokens Demo.META Demo.USDC
           Demo.anchor_wallet "pof" "uri" 7 "SYM" 3 (fst run) (snd run)
           eq_refl eq_refl eq_refl).
Defined.

Lemma demo_amm_is_created_after_the_checks :
  let run :=
    createAmm (Some Demo.program) (Some Demo.state) Demo.tokens
      (Some Demo.anchor_wallet) "pof" "uri" 7 "SYM" 3 Demo.friendly [] in
  exists ev,
    (run = (fst run, [] ++ snd run) /\
     In ev (snd run) /\
     is_amm_operation ev = true) /\
    exists mint rest,
      snd run = Called (mint_fetch Demo.program (Demo.key "METAmint"))
                       (Fulfilled mint) :: rest /\
      supply mint = JsNumber 0.
Proof.
  intros run.
  set (ev := nth 2 (snd run) (ConsoleError "" (NewError ""))).
  assert (Hin : In ev (snd run)) by (vm_compute; auto 10).
  exists ev. split; [repeat split; exact Hin |].
  destruct (amm_is_created_only_after_both_checks Demo.friendly []
              (Some Demo.program) (Some Demo.state) Demo.tokens
              (Some Demo.anchor_wallet) "pof" "uri" 7 "SYM" 3
              (fst run) (snd run) eq_refl ev Hin eq_refl)
    as (p & base & quote & mint & rest & [= <-] & [= <-] & _ & _ & Hevs
        & Hsupply).
  exists mint, rest. split; assumption.
Defined.

Lemma demo_numbers_7_and_8_are_told_apart :
  number (fetched_account (Demo.fetched 7))
  <> number (fetched_account (Demo.fetched 8)) /\
  derive_proposal (ProposalInstruction := Demo.PI) (SwapType := Demo.Side)
    Demo.program 7
  <> derive_proposal Demo.program 8 /\
  title (with_defaults (Demo.fetched 7))
  <> title (with_defaults (Demo.fetched 8)).
Proof.
  assert (Hne : number (fetched_account (Demo.fetched 7))
                <> number (fetched_account (Demo.fetched 8)))
    by (cbn; lia).
  split; [exact Hne |].
  destruct (numbers_tell_proposals_apart (ProposalInstruction := Demo.PI)
              (SwapType := Demo.Side) Demo.program
              (Demo.fetched 7) (Demo.fetched 8) Hne) as [Hseeds Htitles].
  split; [exact Hseeds | exact (Htitles eq_refl eq_refl)].
Defined.

Lemma demo_fetch_order_does_not_show :
  let fetched := [Demo.fetched 1; Demo.fetched 3; Demo.fetched 2] in
  let fetched' := [Demo.fetched 3; Demo.fetched 2; Demo.fetched 1] in
  (Permutation fetched fetched' /\
   NoDup (map (fun p => number (fetched_account p)) fetched)) /\
  proposals (Some fetched) = proposals (Some fetched').
Proof.
  intros fetched fetched'.
  assert (Hperm : Permutation fetched fetched').
  { apply (Permutation_cons_app [Demo.fetched 3; Demo.fetched 2] []).
    apply Permutation_refl. }
  assert (Hnd : NoDup (map (fun p => number (fetched_account p)) fetched))
    by (repeat constructor; cbn; intuition discriminate).
  split; [split; assumption |].
  exact (proposals_do_not_depend_on_fetch_order fetched fetched' Hperm Hnd).
Defined.
